(** * Order record store of the customer-support bot

    A shallow embedding of the class [OrderStatusManager] of [app.py]
    (the copy in [app1.py] differs in docstrings only) and the properties
    of its four operations.

    The store is three Python dictionaries keyed by order id, plus a copy
    of the price dictionary taken at construction.  Prices are kept by the
    program as strings such as ["79$"]; [initiate_return] reads one back
    with [float], computes on binary64 numbers and writes the result with
    the format [.2f].  The embedding keeps the strings and does the
    arithmetic on IEEE 754 binary64 values ([SpecFloat] with precision 53
    and maximal exponent 1024), so that every rounding of the program is
    a rounding of the model. *)

From Stdlib Require Import ZArith String Ascii List Bool Lia.
From Stdlib Require Import Floats.SpecFloat DecimalString.
From stdpp Require Import gmap strings.

Local Open Scope string_scope.
Local Open Scope Z_scope.

(** ** Python strings *)

Module PyStr.

(** [c in chars] for a one-character string [c]. *)
Fixpoint mem_char (c : ascii) (chars : string) : bool :=
  match chars with
  | EmptyString => false
  | String d rest => if Ascii.eqb c d then true else mem_char c rest
  end.

(** [s.rstrip(chars)]: drop every trailing character found in [chars]. *)
Fixpoint rstrip (chars s : string) : string :=
  match s with
  | EmptyString => EmptyString
  | String c rest =>
      match rstrip chars rest with
      | EmptyString => if mem_char c chars then EmptyString else String c EmptyString
      | kept => String c kept
      end
  end.

(** [bool(s)] of a string: false for the empty string only. *)
Definition truthy (s : string) : bool :=
  match s with EmptyString => false | String _ _ => true end.

Definition is_digit (c : ascii) : bool :=
  let n := N_of_ascii c in (N.leb 48 n && N.leb n 57)%bool.

Definition digit_value (c : ascii) : N := (N_of_ascii c - 48)%N.

(** Value of a run of ASCII digits, continuing from [acc]; [None] as soon
    as another character is met.  The empty run leaves [acc]. *)
Fixpoint digits_from (acc : N) (s : string) : option N :=
  match s with
  | EmptyString => Some acc
  | String c rest =>
      if is_digit c then digits_from (acc * 10 + digit_value c)%N rest else None
  end.

(** The text before the first [sep], and the text after it when there is
    one. *)
Fixpoint cut (sep : ascii) (s : string) : string * option string :=
  match s with
  | EmptyString => (EmptyString, None)
  | String c rest =>
      if Ascii.eqb c sep then (EmptyString, Some rest)
      else let '(before, after) := cut sep rest in (String c before, after)
  end.

(** Decimal numeral of a natural number, as [str(n)] prints it. *)
Definition of_N (n : N) : string := NilZero.string_of_uint (N.to_uint n).

Definition digit_char (d : N) : ascii := ascii_of_N (48 + d).

End PyStr.

(** ** Python floats: IEEE 754 binary64 *)

Module PyFloat.

Definition prec : Z := 53.
Definition emax : Z := 1024.

Definition float : Type := spec_float.

Definition fmul : float -> float -> float := SFmul prec emax.
Definition fsub : float -> float -> float := SFsub prec emax.
Definition fdiv : float -> float -> float := SFdiv prec emax.
Definition fleb : float -> float -> bool := SFleb.

(** The binary64 number nearest to [n / d] (ties to even).  Division of
    the two integers, taken as exact significands with exponent 0, rounds
    the exact quotient once. *)
Definition of_ratio (neg : bool) (n d : N) : float :=
  match n, d with
  | N0, _ => S754_zero neg
  | Npos p, Npos q => fdiv (S754_finite neg p 0) (S754_finite false q 0)
  | Npos _, N0 => S754_nan
  end.

(** An unsigned decimal numeral [ddd], [ddd.ddd], [ddd.] or [.ddd]. *)
Definition of_unsigned (neg : bool) (s : string) : option float :=
  match PyStr.cut "." s with
  | (whole, None) =>
      if PyStr.truthy whole
      then n ← PyStr.digits_from 0%N whole; Some (of_ratio neg n 1)
      else None
  | (whole, Some frac) =>
      if (PyStr.truthy whole || PyStr.truthy frac)%bool
      then n ← PyStr.digits_from 0%N whole;
           m ← PyStr.digits_from n frac;
           Some (of_ratio neg m (10 ^ N.of_nat (String.length frac)))
      else None
  end.

(** [float(s)] on plain decimal notation with an optional sign; [None]
    stands for [ValueError].  Python also reads exponents, underscores,
    surrounding blanks, [inf] and [nan]; the store never holds such a
    string (see [price_domain] below), and the model rejects them. *)
Definition of_string (s : string) : option float :=
  match s with
  | String "+" rest => of_unsigned false rest
  | String "-" rest => of_unsigned true rest
  | _ => of_unsigned false s
  end.

(** The integer nearest to [m * 2^e * 100], ties to even. *)
Definition hundredths (m : positive) (e : Z) : N :=
  match e with
  | Zneg k =>
      let num := (Npos m * 100)%N in
      let den := N.shiftl 1 (Npos k) in
      let q := (num / den)%N in
      let r := (num mod den)%N in
      match (2 * r ?= den)%N with
      | Lt => q
      | Gt => (q + 1)%N
      | Eq => if N.even q then q else (q + 1)%N
      end
  | _ => (N.shiftl (Npos m) (Z.to_N e) * 100)%N
  end.

Definition sign_text (neg : bool) : string := if neg then "-" else "".

(** [f"{x:.2f}"]: the decimal numeral with two fractional digits nearest
    to the exact value of [x]. *)
Definition format_2f (x : float) : string :=
  match x with
  | S754_nan => "nan"
  | S754_infinity neg => sign_text neg ++ "inf"
  | S754_zero neg => sign_text neg ++ "0.00"
  | S754_finite neg m e =>
      let h := hundredths m e in
      sign_text neg ++ PyStr.of_N (h / 100)%N ++ "."
        ++ String (PyStr.digit_char ((h mod 100) / 10)%N)
             (String (PyStr.digit_char (h mod 10)%N) EmptyString)
  end.

(** The literal [0.02]. *)
Definition lit_0_02 : float := of_ratio false 2 100.

End PyFloat.

(** ** Python dates *)

Module PyDate.

Record date : Type := Date { year : Z; month : Z; day : Z }.

Definition is_leap (y : Z) : bool :=
  ((y mod 4 =? 0) && (negb (y mod 100 =? 0) || (y mod 400 =? 0)))%bool.

Definition days_before_year (y : Z) : Z :=
  let y' := y - 1 in y' * 365 + y' / 4 - y' / 100 + y' / 400.

Definition days_in_month (y m : Z) : Z :=
  if ((m =? 2) && is_leap y)%bool then 29
  else nth (Z.to_nat m) [0; 31; 28; 31; 30; 31; 30; 31; 31; 30; 31; 30; 31] 0.

Definition days_before_month (y m : Z) : Z :=
  nth (Z.to_nat m) [0; 0; 31; 59; 90; 120; 151; 181; 212; 243; 273; 304; 334] 0
  + (if ((2 <? m) && is_leap y)%bool then 1 else 0).

(** [d.toordinal()]: 1 for 1 January of year 1. *)
Definition toordinal (d : date) : Z :=
  days_before_year (year d) + days_before_month (year d) (month d) + day d.

(** The dates [datetime.date] can hold. *)
Definition valid (d : date) : bool :=
  ((1 <=? year d) && (year d <=? 9999) && (1 <=? month d) && (month d <=? 12)
   && (1 <=? day d) && (day d <=? days_in_month (year d) (month d)))%bool.

(** [(a - b).days] *)
Definition days_between (a b : date) : Z := toordinal a - toordinal b.

(** The directive [%d]: [3[0-1]|[1-2]\d|0[1-9]|[1-9]| [1-9]]. *)
Definition field_d (s : string) : option Z :=
  match s with
  | String a EmptyString =>
      if (PyStr.is_digit a && negb (Ascii.eqb a "0"))%bool
      then Some (Z.of_N (PyStr.digit_value a)) else None
  | String a (String b EmptyString) =>
      if (PyStr.is_digit b &&
          (Ascii.eqb a "1" || Ascii.eqb a "2"
           || (Ascii.eqb a "3" && (Ascii.eqb b "0" || Ascii.eqb b "1"))
           || ((Ascii.eqb a "0" || Ascii.eqb a " ") && negb (Ascii.eqb b "0"))))%bool
      then Some (Z.of_N ((if Ascii.eqb a " " then 0 else PyStr.digit_value a) * 10
                         + PyStr.digit_value b))
      else None
  | _ => None
  end.

(** The directive [%m]: [1[0-2]|0[1-9]|[1-9]]. *)
Definition field_m (s : string) : option Z :=
  match s with
  | String a EmptyString =>
      if (PyStr.is_digit a && negb (Ascii.eqb a "0"))%bool
      then Some (Z.of_N (PyStr.digit_value a)) else None
  | String a (String b EmptyString) =>
      if ((Ascii.eqb a "1" && (Ascii.eqb b "0" || Ascii.eqb b "1" || Ascii.eqb b "2"))
          || (Ascii.eqb a "0" && PyStr.is_digit b && negb (Ascii.eqb b "0")))%bool
      then Some (Z.of_N (PyStr.digit_value a * 10 + PyStr.digit_value b))
      else None
  | _ => None
  end.

(** The directive [%y]: two digits; 69 to 99 are 1969 to 1999, 0 to 68
    are 2000 to 2068. *)
Definition field_y (s : string) : option Z :=
  match s with
  | String a (String b EmptyString) =>
      if (PyStr.is_digit a && PyStr.is_digit b)%bool
      then let y := Z.of_N (PyStr.digit_value a * 10 + PyStr.digit_value b) in
           Some (if y <=? 68 then y + 2000 else y + 1900)
      else None
  | _ => None
  end.

(** [datetime.datetime.strptime(s, "%d/%m/%y").date()]; [None] stands for
    [ValueError] (text that does not match the format, text left over, or
    a day the month does not have).  The separators are not digits, so
    the three fields are the texts between them. *)
Definition strptime_dmy (s : string) : option date :=
  match PyStr.cut "/" s with
  | (ds, Some rest) =>
      match PyStr.cut "/" rest with
      | (ms, Some ys) =>
          d ← field_d ds; m ← field_m ms; y ← field_y ys;
          let r := Date y m d in
          if valid r then Some r else None
      | _ => None
      end
  | _ => None
  end.

End PyDate.

(** ** The store and its four operations *)

Module OrderStatusManager.

Import PyDate.

(** The attributes of an [OrderStatusManager] object. *)
Record store : Type := Store {
  order_statuses : gmap string string;
  order_price : gmap string string;
  order_shipped : gmap string string;
  original_prices : gmap string string
}.

(** [__init__]: the seeded catalogue.  [original_prices] is a copy of the
    price dictionary, a value of its own that later writes to
    [order_price] do not reach. *)
Definition init : store :=
  let prices : gmap string string :=
    {[ "12345" := "500$"; "67890" := "79$"; "11223" := "900$" ]} in
  {| order_statuses :=
       {[ "12345" := "Shipped"; "67890" := "Processing"; "11223" := "Delivered" ]};
     order_price := prices;
     order_shipped :=
       {[ "12345" := "22/2/25"; "67890" := "24/2/25"; "11223" := "2/2/25" ]};
     original_prices := prices |}.

(** *** Methods as state transformers that may raise *)

Inductive exn : Type :=
| KeyError (key : string)
| ValueError.

(** A call either returns a value or raises; in both cases the writes it
    made to the object stay. *)
Inductive outcome (A : Type) : Type :=
| Returns (a : A) (s : store)
| Raises (e : exn) (s : store).
Arguments Returns {A} a s.
Arguments Raises {A} e s.

Definition M (A : Type) : Type := store -> outcome A.

Definition ret {A} (a : A) : M A := fun s => Returns a s.

Definition bind {A B} (c : M A) (k : A -> M B) : M B :=
  fun s => match c s with
           | Returns a s' => k a s'
           | Raises e s' => Raises e s'
           end.

Definition raise {A} (e : exn) : M A := fun s => Raises e s.

Definition read {A} (f : store -> A) : M A := fun s => Returns (f s) s.

Definition write (f : store -> store) : M unit := fun s => Returns tt (f s).

Notation "x <- c ;; k" := (bind c (fun x => k))
  (at level 100, c at next level, right associativity).
Notation "c ;; k" := (bind c (fun _ => k))
  (at level 100, right associativity).

(** [d[key]] *)
Definition getitem (d : store -> gmap string string) (key : string) : M string :=
  v <- read (fun s => d s !! key);;
  match v with
  | Some x => ret x
  | None => raise (KeyError key)
  end.

(** [self.order_statuses[key] = v] and [self.order_price[key] = v] *)
Definition set_status (key v : string) : M unit :=
  write (fun s => {| order_statuses := <[key := v]> (order_statuses s);
                     order_price := order_price s;
                     order_shipped := order_shipped s;
                     original_prices := original_prices s |}).

Definition set_price (key v : string) : M unit :=
  write (fun s => {| order_statuses := order_statuses s;
                     order_price := <[key := v]> (order_price s);
                     order_shipped := order_shipped s;
                     original_prices := original_prices s |}).

(** A library call that raises [ValueError] where the model has [None]. *)
Definition or_value_error {A} (o : option A) : M A :=
  match o with
  | Some a => ret a
  | None => raise ValueError
  end.

(** *** The methods *)

Definition get_total_price (order_id : string) : M string :=
  read (fun s => default "total sum price" (order_price s !! order_id)).

Definition get_order_status (order_id : string) : M string :=
  read (fun s => default "Order ID not found." (order_statuses s !! order_id)).

(** The ten-day check of [initiate_return]: [Some] of the refusal when the
    order has a ship date more than ten days before [today]. *)
Definition window_check (today : date) (order_id : string) : M (option string) :=
  shipping_date_str <- read (fun s => order_shipped s !! order_id);;
  match shipping_date_str with
  | Some text =>
      if PyStr.truthy text then
        shipping_date <- or_value_error (strptime_dmy text);;
        let days_since_shipped := days_between today shipping_date in
        if 10 <? days_since_shipped then
          ret (Some ("Return cannot be initiated for order " ++ order_id
                     ++ " as it has been" ++ " more than 10 days since shipping."))
        else ret None
      else ret None
  | None => ret None
  end.

(** [today] is what [datetime.date.today()] answers during the call. *)
Definition initiate_return (today : date) (order_id reason : string) : M string :=
  if bool_decide (order_id ∈ ["12345"; "67890"; "11223"]) then
    refusal <- window_check today order_id;;
    match refusal with
    | Some text => ret text
    | None =>
        set_status order_id "Return Initiated" ;;
        price_text <- getitem order_price order_id;;
        original_price <- or_value_error
                               (PyFloat.of_string (PyStr.rstrip "$" price_text));;
        let penalty := PyFloat.fmul original_price PyFloat.lit_0_02 in
        let new_price := PyFloat.fsub original_price penalty in
        set_price order_id (PyFloat.format_2f new_price ++ "$") ;;
        shown <- getitem order_price order_id;;
        ret ("Return initiated for order " ++ order_id ++ " due to: " ++ reason
             ++ ". Price after" ++ " penalty is " ++ shown ++ ".")
    end
  else ret "Order ID not found. Cannot initiate return.".

Definition cancel_return (order_id reason : string) : M string :=
  known <- read (fun s => bool_decide (is_Some (order_statuses s !! order_id)));;
  if (known : bool) then
    status <- getitem order_statuses order_id;;
    if String.eqb status "Return Initiated" then
      kept_status <- read (fun s => default "Cancelled Order" (order_statuses s !! order_id));;
      set_status order_id kept_status ;;
      kept_price <- read (fun s => default "order_price" (order_price s !! order_id));;
      set_price order_id kept_price ;;
      shown <- getitem order_price order_id;;
      ret ("Return cancellation initiated for order " ++ order_id ++ " due to:"
           ++ " " ++ reason ++ ". Price reset to " ++ shown ++ ".")
    else
      ret ("Order " ++ order_id ++ " is not in 'Return Initiated' status. Cannot"
           ++ " cancel return.")
  else ret "Order ID not found. Cannot cancel return.".

(** *** Calls and the states they reach *)

Inductive call : Type :=
| GetOrderStatus (order_id : string)
| GetTotalPrice (order_id : string)
| InitiateReturn (today : date) (order_id reason : string)
| CancelReturn (order_id reason : string).

Definition run (c : call) : M string :=
  match c with
  | GetOrderStatus order_id => get_order_status order_id
  | GetTotalPrice order_id => get_total_price order_id
  | InitiateReturn today order_id reason => initiate_return today order_id reason
  | CancelReturn order_id reason => cancel_return order_id reason
  end.

Definition state_after {A} (o : outcome A) : store :=
  match o with
  | Returns _ s => s
  | Raises _ s => s
  end.

(** The store after a sequence of calls, one after the other. *)
Fixpoint run_all (cs : list call) (s : store) : store :=
  match cs with
  | [] => s
  | c :: rest => run_all rest (state_after (run c s))
  end.

(** The states of a manager object: the seeded one and what the four
    methods make of it. *)
Inductive reachable : store -> Prop :=
| reachable_init : reachable init
| reachable_call s c : reachable s -> reachable (state_after (run c s)).

End OrderStatusManager.

(** ** Notions the properties are stated with *)

Module Props.

Import PyDate OrderStatusManager.

(** The price text the accepting branch of [initiate_return] writes over
    the price text [price_text]; [None] when [float] raises. *)
Definition penalised (price_text : string) : option string :=
  x ← PyFloat.of_string (PyStr.rstrip "$" price_text);
  Some (PyFloat.format_2f (PyFloat.fsub x (PyFloat.fmul x PyFloat.lit_0_02)) ++ "$").

(** The amount a price text denotes, in hundredths of the currency unit,
    read as a decimal numeral: ["79$"] is 7900 and ["77.42$"] is 7742.
    Defined for whole amounts and amounts with two decimals. *)
Definition cents (price_text : string) : option Z :=
  match PyStr.cut "." (PyStr.rstrip "$" price_text) with
  | (whole, None) =>
      if PyStr.truthy whole
      then n ← PyStr.digits_from 0%N whole; Some (Z.of_N n * 100)
      else None
  | (whole, Some frac) =>
      if (PyStr.truthy whole && (String.length frac =? 2)%nat)%bool
      then n ← PyStr.digits_from 0%N whole;
           m ← PyStr.digits_from n frac; Some (Z.of_N m)
      else None
  end.

(** The amount a price text denotes for the program: the binary64 number
    [float] reads from it. *)
Definition amount (price_text : string) : option PyFloat.float :=
  PyFloat.of_string (PyStr.rstrip "$" price_text).

(** [c'] hundredths is 0.98 times [c] hundredths rounded to two decimal
    places: no amount in whole hundredths is nearer to [0.98 * c].  When
    [0.98 * c] lies halfway between two, either is a rounding. *)
Definition rounds_to (c c' : Z) : Prop := Z.abs (100 * c' - 98 * c) <= 50.

(** The prices met when the penalty is applied again and again to [p],
    until it no longer changes the price (or [fuel] runs out). *)
Fixpoint price_chain (fuel : nat) (p : string) : list string :=
  p :: match fuel with
       | O => []
       | S n => match penalised p with
                | Some q => if String.eqb q p then [] else price_chain n q
                | None => []
                end
       end.

(** The price texts order [p0] can come to hold. *)
Definition price_domain (p0 : string) : list string := price_chain 512 p0.

(** The price at which the penalty is lost in the rounding: 0.98 times
    0.24 is 0.2352, printed as 0.24. *)
Definition floor_price : string := "0.24$".

(** What is checked of a price [p] in the domain of seed [p0], [q] being
    the price the penalty makes of it. *)
Definition step_ok (p0 p q : string) : bool :=
  match penalised p, cents p, cents q, cents p0, amount p, amount p0 with
  | Some q', Some c, Some c', Some c0, Some x, Some x0 =>
      String.eqb q' q
      && (Z.abs (100 * c' - 98 * c) <=? 50)
      && (c <=? c0) && (0 <=? c) && PyFloat.fleb x x0
      && PyStr.truthy p && PyStr.truthy q
      && (negb (String.eqb q p) || String.eqb p floor_price)
  | _, _, _, _, _, _ => false
  end.

(** The check along a chain: each price is followed by its penalised
    price, and the penalty leaves the last one as it is. *)
Fixpoint chain_ok (p0 : string) (l : list string) : bool :=
  match l with
  | [] => true
  | p :: rest =>
      step_ok p0 p (match rest with q :: _ => q | [] => p end) && chain_ok p0 rest
  end.

(** What [step_ok] establishes of a price [p], with [q] its penalised
    price found in [dom]. *)
Inductive price_facts (dom : list string) (p0 p : string) : Prop :=
| PriceFacts (q : string) (c c' c0 : Z) (x x0 : PyFloat.float) :
    penalised p = Some q ->
    q ∈ dom ->
    cents p = Some c -> cents q = Some c' -> cents p0 = Some c0 ->
    rounds_to c c' -> 0 <= c <= c0 ->
    amount p = Some x -> amount p0 = Some x0 -> PyFloat.fleb x x0 = true ->
    p <> "" -> q <> "" ->
    (p <> floor_price -> q <> p) ->
    price_facts dom p0 p.

(** The status texts an order seeded with [st0] can come to hold. *)
Definition status_domain (st0 : string) : list string := [st0; "Return Initiated"].

(** What every state of a manager object satisfies. *)
Record consistent (s : store) : Prop := {
  shipped_fixed : order_shipped s = order_shipped init;
  originals_fixed : original_prices s = original_prices init;
  statuses_known : forall oid,
    match order_statuses init !! oid with
    | Some st0 => exists st, order_statuses s !! oid = Some st /\ st ∈ status_domain st0
    | None => order_statuses s !! oid = None
    end;
  prices_known : forall oid,
    match order_price init !! oid with
    | Some p0 => exists p, order_price s !! oid = Some p /\ p ∈ price_domain p0
    | None => order_price s !! oid = None
    end
}.

(** The order's return window is open on [today]: it has no ship date, or
    the ship date is at most ten days before [today]. *)
Definition window_open (today : date) (s : store) (order_id : string) : Prop :=
  match order_shipped s !! order_id with
  | Some text =>
      if PyStr.truthy text
      then exists d, strptime_dmy text = Some d /\ days_between today d <= 10
      else True
  | None => True
  end.

(** The order has a ship date more than ten days before [today]. *)
Definition window_closed (today : date) (s : store) (order_id : string) : Prop :=
  exists text d, order_shipped s !! order_id = Some text /\ text <> ""
                 /\ strptime_dmy text = Some d /\ 10 < days_between today d.

(** The store after the accepting branch of [initiate_return]. *)
Definition returned (order_id q : string) (s : store) : store :=
  {| order_statuses := <[order_id := "Return Initiated"]> (order_statuses s);
     order_price := <[order_id := q]> (order_price s);
     order_shipped := order_shipped s;
     original_prices := original_prices s |}.

(** The store once order 67890 has been returned 280 times on
    25 February 2025, a day after it was shipped. *)
Definition worn_store : store :=
  run_all (replicate 280 (InitiateReturn (Date 2025 2 25) "67890" "wrong item")) init.

End Props.

(** ** Further notions *)

Module Further.

Import PyDate OrderStatusManager Props.

(** The order a call is about. *)
Definition order_of (c : call) : string :=
  match c with
  | GetOrderStatus order_id => order_id
  | GetTotalPrice order_id => order_id
  | InitiateReturn _ order_id _ => order_id
  | CancelReturn order_id _ => order_id
  end.

(** A price of at least 0.24 in the currency unit. *)
Definition above_floor (p : string) : bool :=
  match cents p with
  | Some c => 24 <=? c
  | None => false
  end.

(** The price the penalty makes of [p], read by [float] and printed with
    [.2f] and the currency sign again, is the same text. *)
Definition reads_back (p : string) : bool :=
  match penalised p with
  | Some q =>
      match amount q with
      | Some y => String.eqb (PyFloat.format_2f y ++ "$") q
      | None => false
      end
  | None => false
  end.





(** Calendar order of two dates: by year, then month, then day. *)
Definition date_le (a b : date) : Prop :=
  year a < year b
  \/ (year a = year b
      /\ (month a < month b \/ (month a = month b /\ day a <= day b))).


(** A store whose price dictionary has lost its entries, as after
    [manager.order_price.clear()]. *)
Definition without_prices (s : store) : store :=
  {| order_statuses := order_statuses s;
     order_price := ∅;
     order_shipped := order_shipped s;
     original_prices := original_prices s |}.

End Further.

(** ** The chat page *)

Module Chat.

(** An entry of [st.session_state.messages]. *)
Record message : Type := Message { role : string; content : string }.

(** An item of [graph.stream]: a dictionary; of the messages under a key
    only the contents matter here. *)
Definition event : Type := gmap string (list string).

(** One run of the script: the session's message list, and what
    [st.chat_message] and [st.markdown] have drawn so far, in order. *)
Record page : Type := Page { messages : list message; drawn : list message }.

(** A run ends normally, or in the [IndexError] of [event["messages"][-1]]
    on an empty list; what was appended and drawn by then stays. *)
Inductive ended : Type :=
| Done (pg : page)
| IndexError (pg : page).

Definition page_of (e : ended) : page :=
  match e with
  | Done pg => pg
  | IndexError pg => pg
  end.

(** Append an entry to the session list and draw it. *)
Definition say (who text : string) (pg : page) : page :=
  {| messages := messages pg ++ [Message who text];
     drawn := drawn pg ++ [Message who text] |}.

(** The loop over the events of [graph.stream]. *)
Fixpoint relay (events : list event) (pg : page) : ended :=
  match events with
  | [] => Done pg
  | event :: rest =>
      match event !! "messages" with
      | Some found =>
          match last found with
          | Some response_content => relay rest (say "assistant" response_content pg)
          | None => IndexError pg
          end
      | None => relay rest pg
      end
  end.

(** The script from [st.title] on.  [session] is the message list of
    [st.session_state] when it has one, [chat_input] what [st.chat_input]
    answers, [events] what [graph.stream] yields for that input. *)
Definition script (session : option (list message)) (chat_input : option string)
    (events : list event) : ended :=
  let stored := default [] session in
  let pg := {| messages := stored; drawn := stored |} in
  match chat_input with
  | Some user_input =>
      if PyStr.truthy user_input
      then relay events (say "user" user_input pg)
      else Done pg
  | None => Done pg
  end.

(** The content the loop takes from an event, if any. *)
Definition reply_of (e : event) : option string := found ← e !! "messages"; last found.

(** Every event that has messages has at least one. *)
Definition well_formed (events : list event) : Prop :=
  Forall (fun e : event => e !! "messages" <> Some []) events.

End Chat.

(** ** Properties *)

Import PyDate OrderStatusManager Props.

(** *** The model on known values *)

(** The literal [0.02] is the double 0x3F947AE147AE147B. *)
Example lit_0_02_bits :
  PyFloat.lit_0_02 = S754_finite false 5764607523034235 (-58).
Proof. vm_compute. reflexivity. Qed.

Example float_of_price : amount "77.42$" = Some (S754_finite false 5447948174234747 (-46)).
Proof. vm_compute. reflexivity. Qed.

Example rstrip_dollars : PyStr.rstrip "$" "a$b$$" = "a$b".
Proof. reflexivity. Qed.

(** [.2f] rounds the exact binary value: 0.125 and 0.375 are exact halves
    and go to the even neighbour; 0.005 is a double just above the half. *)
Example format_halves :
  PyFloat.format_2f (PyFloat.of_ratio false 125 1000) = "0.12"
  /\ PyFloat.format_2f (PyFloat.of_ratio false 375 1000) = "0.38"
  /\ PyFloat.format_2f (PyFloat.of_ratio false 5 1000) = "0.01".
Proof. repeat split; vm_compute; reflexivity. Qed.

Example strptime_seeded :
  strptime_dmy "22/2/25" = Some (Date 2025 2 22)
  /\ strptime_dmy "2/2/25" = Some (Date 2025 2 2)
  /\ strptime_dmy "31/2/25" = None
  /\ toordinal (Date 2025 2 22) = 739304.
Proof. repeat split; vm_compute; reflexivity. Qed.

Example penalised_seeds :
  penalised "500$" = Some "490.00$" /\ penalised "79$" = Some "77.42$"
  /\ penalised "900$" = Some "882.00$".
Proof. repeat split; vm_compute; reflexivity. Qed.

(** *** Checking a list element by element *)

Lemma forallb_elem {A} (f : A -> bool) (l : list A) x :
  forallb f l = true -> x ∈ l -> f x = true.
Proof.
  intros Hall Hin. apply list_elem_of_In in Hin.
  rewrite forallb_forall in Hall. auto.
Qed.

Lemma existsb_eqb_elem (q : string) (l : list string) :
  existsb (String.eqb q) l = true -> q ∈ l.
Proof.
  rewrite existsb_exists. intros (y & Hin & Heq).
  apply String.eqb_eq in Heq. subst. now apply list_elem_of_In.
Qed.

Lemma truthy_nonempty s : PyStr.truthy s = true -> s <> "".
Proof. destruct s; simpl; congruence. Qed.

Lemma nonempty_truthy s : s <> "" -> PyStr.truthy s = true.
Proof. destruct s; simpl; congruence. Qed.

(** Where 0.98 times the price is exactly halfway between two amounts in
    cents, the binary arithmetic settles the side: 0.98 * 44.25 = 43.365
    goes up and 0.98 * 27.25 = 26.705 goes down.  Both prices are met on
    the way down from 500$. *)
Example exact_half_goes_either_way :
  penalised "44.25$" = Some "43.37$" /\ penalised "27.25$" = Some "26.70$"
  /\ "44.25$" ∈ price_domain "500$" /\ "27.25$" ∈ price_domain "500$".
Proof.
  repeat split; try (vm_compute; reflexivity);
    apply existsb_eqb_elem; vm_compute; reflexivity.
Qed.

Lemma step_ok_facts dom p0 p q :
  step_ok p0 p q = true -> q ∈ dom -> price_facts dom p0 p.
Proof.
  unfold step_ok.
  destruct (penalised p) as [q'|] eqn:Hq; [|discriminate].
  destruct (cents p) as [c|] eqn:Hc; [|discriminate].
  destruct (cents q) as [c'|] eqn:Hc'; [|discriminate].
  destruct (cents p0) as [c0|] eqn:Hc0; [|discriminate].
  destruct (amount p) as [x|] eqn:Hx; [|discriminate].
  destruct (amount p0) as [x0|] eqn:Hx0; [|discriminate].
  rewrite !andb_true_iff. intros [[[[[[[H1 H2] H3] H4] H5] H6] H7] H8] Hdom.
  apply String.eqb_eq in H1. subst q'.
  apply (PriceFacts dom p0 p q c c' c0 x x0); auto using truthy_nonempty.
  - unfold rounds_to. lia.
  - lia.
  - intros Hne. apply orb_true_iff in H8 as [H8|H8].
    + apply negb_true_iff, String.eqb_neq in H8. exact H8.
    + apply String.eqb_eq in H8. contradiction.
Qed.

Lemma price_facts_mono dom dom' p0 p :
  (forall q, q ∈ dom -> q ∈ dom') -> price_facts dom p0 p -> price_facts dom' p0 p.
Proof. intros Hsub [q c c' c0 x x0]. apply (PriceFacts dom' p0 p q c c' c0 x x0); auto. Qed.

Lemma chain_ok_facts p0 l p :
  chain_ok p0 l = true -> p ∈ l -> price_facts l p0 p.
Proof.
  induction l as [|a rest IH]; intros Hok Hin.
  - apply elem_of_nil in Hin. contradiction.
  - cbn [chain_ok] in Hok. apply andb_true_iff in Hok as [Hstep Hrest].
    apply elem_of_cons in Hin as [->|Hin].
    + eapply step_ok_facts; [exact Hstep|].
      destruct rest; [left | right; left].
    + apply price_facts_mono with (dom := rest); [intros; now right|auto].
Qed.

(** Every price of the three domains passes the check: some 1050 runs of
    the float arithmetic. *)
Lemma seed_domain_ok p0 p :
  p0 ∈ ["500$"; "79$"; "900$"] -> p ∈ price_domain p0 ->
  price_facts (price_domain p0) p0 p.
Proof.
  intros Hp0 Hp. apply chain_ok_facts; [|exact Hp].
  repeat (apply elem_of_cons in Hp0 as [->|Hp0]); [vm_compute; reflexivity ..|].
  apply elem_of_nil in Hp0. contradiction.
Qed.

(** *** The seeded catalogue *)

Lemma known_cases (oid : string) :
  (oid = "12345" \/ oid = "67890" \/ oid = "11223")
  \/ ((oid ∉ ["12345"; "67890"; "11223"])
      /\ order_statuses init !! oid = None /\ order_price init !! oid = None
      /\ order_shipped init !! oid = None).
Proof.
  destruct (decide (oid = "12345")) as [->|H1]; [auto|].
  destruct (decide (oid = "67890")) as [->|H2]; [auto|].
  destruct (decide (oid = "11223")) as [->|H3]; [auto|].
  right. split.
  - rewrite !elem_of_cons, elem_of_nil. tauto.
  - unfold init; cbn [order_statuses order_price order_shipped].
    rewrite !lookup_insert_ne, !lookup_singleton_ne by congruence. auto.
Qed.

Lemma known_listed (oid : string) :
  oid ∈ ["12345"; "67890"; "11223"] <-> is_Some (order_price init !! oid).
Proof.
  destruct (known_cases oid) as [ [ -> | [ -> | -> ] ] | [Hn [_ [Hp _] ] ] ].
  1-3: split; intros _; [vm_compute; eauto | rewrite !elem_of_cons; auto].
  rewrite Hp. split; [contradiction | intros [? ?]; discriminate].
Qed.

(** *** What each method does *)

Lemma initiate_return_unknown today oid reason s :
  oid ∉ ["12345"; "67890"; "11223"] ->
  initiate_return today oid reason s
  = Returns "Order ID not found. Cannot initiate return." s.
Proof.
  intros Hid. unfold initiate_return.
  rewrite bool_decide_eq_false_2 by exact Hid. reflexivity.
Qed.

Lemma window_check_closed today oid s :
  window_closed today s oid ->
  window_check today oid s
  = Returns (Some ("Return cannot be initiated for order " ++ oid
                   ++ " as it has been more than 10 days since shipping.")) s.
Proof.
  intros (text & d & Hship & Htext & Hd & Hdays).
  cbv [window_check bind read]. rewrite Hship.
  rewrite (nonempty_truthy _ Htext), Hd. cbv [or_value_error ret].
  apply Z.ltb_lt in Hdays. rewrite Hdays. reflexivity.
Qed.

Lemma window_check_open today oid s :
  window_open today s oid -> window_check today oid s = Returns None s.
Proof.
  unfold window_open. cbv [window_check bind read].
  destruct (order_shipped s !! oid) as [text|]; [|reflexivity].
  destruct (PyStr.truthy text); [|reflexivity].
  intros (d & -> & Hdays). cbv [or_value_error ret].
  apply Z.ltb_ge in Hdays. rewrite Hdays. reflexivity.
Qed.

Lemma initiate_return_refused today oid reason s :
  oid ∈ ["12345"; "67890"; "11223"] ->
  window_closed today s oid ->
  initiate_return today oid reason s
  = Returns ("Return cannot be initiated for order " ++ oid
             ++ " as it has been more than 10 days since shipping.") s.
Proof.
  intros Hid Hclosed. unfold initiate_return.
  rewrite bool_decide_eq_true_2 by exact Hid.
  unfold bind at 1. rewrite (window_check_closed _ _ _ Hclosed). reflexivity.
Qed.

Lemma initiate_return_accepted today oid reason s p q :
  oid ∈ ["12345"; "67890"; "11223"] ->
  window_open today s oid ->
  order_price s !! oid = Some p ->
  penalised p = Some q ->
  initiate_return today oid reason s
  = Returns ("Return initiated for order " ++ oid ++ " due to: " ++ reason
             ++ ". Price after penalty is " ++ q ++ ".")
            (returned oid q s).
Proof.
  intros Hid Hopen Hp Hq. unfold initiate_return.
  rewrite bool_decide_eq_true_2 by exact Hid.
  unfold bind at 1. rewrite (window_check_open _ _ _ Hopen).
  cbv [bind set_status write getitem read]. cbn [order_price].
  rewrite Hp. cbv [ret].
  unfold penalised in Hq.
  destruct (PyFloat.of_string (PyStr.rstrip "$" p)) as [x|]; [|discriminate].
  cbn [mbind option_bind] in Hq. injection Hq as <-.
  cbv [or_value_error ret set_price write]. cbn [order_price order_statuses].
  rewrite lookup_insert_eq. reflexivity.
Qed.

Lemma cancel_return_unknown oid reason s :
  order_statuses s !! oid = None ->
  cancel_return oid reason s = Returns "Order ID not found. Cannot cancel return." s.
Proof.
  intros Hid. cbv [cancel_return bind read]. rewrite Hid.
  rewrite bool_decide_eq_false_2 by (intros [? ?]; discriminate). reflexivity.
Qed.

Lemma cancel_return_refused oid reason s st :
  order_statuses s !! oid = Some st ->
  st <> "Return Initiated" ->
  cancel_return oid reason s
  = Returns ("Order " ++ oid
             ++ " is not in 'Return Initiated' status. Cannot cancel return.") s.
Proof.
  intros Hid Hst. cbv [cancel_return bind read getitem]. rewrite Hid.
  rewrite bool_decide_eq_true_2 by eauto. cbv [ret]. rewrite Hid.
  apply String.eqb_neq in Hst. rewrite Hst. reflexivity.
Qed.

Lemma cancel_return_accepted oid reason s p :
  order_statuses s !! oid = Some "Return Initiated" ->
  order_price s !! oid = Some p ->
  cancel_return oid reason s
  = Returns ("Return cancellation initiated for order " ++ oid ++ " due to: "
             ++ reason ++ ". Price reset to " ++ p ++ ".") s.
Proof.
  intros Hid Hp.
  cbv [cancel_return bind read getitem]. rewrite Hid.
  rewrite bool_decide_eq_true_2 by eauto. cbv [ret]. rewrite Hid.
  rewrite String.eqb_refl.
  cbv [set_status set_price write]. cbn [order_statuses order_price].
  rewrite Hid, Hp. cbv [default from_option Datatypes.id].
  rewrite lookup_insert_eq.
  rewrite (insert_id _ oid _ Hid), (insert_id _ oid _ Hp).
  destruct s; reflexivity.
Qed.

(** *** The invariant *)

Lemma consistent_init : consistent init.
Proof.
  split; try reflexivity.
  - intros oid. destruct (order_statuses init !! oid) as [st0|] eqn:H; [|reflexivity].
    exists st0. split; [reflexivity | left].
  - intros oid. destruct (order_price init !! oid) as [p0|] eqn:H; [|reflexivity].
    exists p0. split; [reflexivity | left].
Qed.

Lemma seed_prices oid p0 :
  order_price init !! oid = Some p0 -> p0 ∈ ["500$"; "79$"; "900$"].
Proof.
  destruct (known_cases oid) as [ [ -> | [ -> | -> ] ] | [_ [_ [Hp _] ] ] ].
  1-3: intros H; vm_compute in H; injection H as <-; rewrite !elem_of_cons; auto.
  rewrite Hp. discriminate.
Qed.

(** The ship dates of the catalogue are dates. *)
Lemma seed_ship_dates oid text :
  order_shipped init !! oid = Some text ->
  text <> "" /\ exists d, strptime_dmy text = Some d.
Proof.
  destruct (known_cases oid) as [ [ -> | [ -> | -> ] ] | [_ [_ [_ Hs] ] ] ].
  1-3: intros H; vm_compute in H; injection H as <-; split;
    [discriminate | eexists; vm_compute; reflexivity].
  rewrite Hs. discriminate.
Qed.

Lemma consistent_price s oid p0 p :
  consistent s -> order_price init !! oid = Some p0 -> order_price s !! oid = Some p ->
  price_facts (price_domain p0) p0 p.
Proof.
  intros Hs Hp0 Hp. pose proof (prices_known s Hs oid) as H. rewrite Hp0 in H.
  destruct H as (p' & Hp' & Hdom). rewrite Hp in Hp'. injection Hp' as <-.
  apply seed_domain_ok; eauto using seed_prices.
Qed.

Lemma consistent_returned s oid p q :
  consistent s -> order_price s !! oid = Some p -> penalised p = Some q ->
  consistent (returned oid q s).
Proof.
  intros Hs Hp Hq.
  assert (Hseed : exists p0, order_price init !! oid = Some p0).
  { pose proof (prices_known s Hs oid) as H.
    destruct (order_price init !! oid); [eauto | congruence]. }
  destruct Hseed as [p0 Hp0].
  split; cbn [returned order_shipped original_prices order_statuses order_price].
  - apply (shipped_fixed s Hs).
  - apply (originals_fixed s Hs).
  - intros oid'. pose proof (statuses_known s Hs oid') as H.
    destruct (decide (oid = oid')) as [<-|Hne].
    + rewrite lookup_insert_eq.
      destruct (order_statuses init !! oid) as [st0|] eqn:Hst0.
      * exists "Return Initiated". split; [reflexivity | right; left].
      * pose proof (known_cases oid) as Hk. exfalso.
        destruct Hk as [ [ -> | [ -> | -> ] ] | [_ [_ [Hn _] ] ] ];
          try (vm_compute in Hst0; discriminate); congruence.
    + rewrite lookup_insert_ne by exact Hne. exact H.
  - intros oid'. pose proof (prices_known s Hs oid') as H.
    destruct (decide (oid = oid')) as [<-|Hne].
    + rewrite lookup_insert_eq, Hp0. exists q. split; [reflexivity|].
      destruct (consistent_price s oid p0 p Hs Hp0 Hp) as [q' c c' c0 x x0 Hq' Hdom].
      congruence.
    + rewrite lookup_insert_ne by exact Hne. exact H.
Qed.

(** In a consistent store the window of a catalogue order is either open or
    closed, whatever the day. *)
Lemma window_cases today s oid :
  consistent s -> oid ∈ ["12345"; "67890"; "11223"] ->
  window_open today s oid \/ window_closed today s oid.
Proof.
  intros Hs Hid. unfold window_open, window_closed.
  rewrite (shipped_fixed s Hs).
  destruct (order_shipped init !! oid) as [text|] eqn:Hship; [|left; exact I].
  destruct (seed_ship_dates oid text Hship) as [Htext [d Hd]].
  rewrite (nonempty_truthy _ Htext).
  destruct (Z_lt_le_dec 10 (days_between today d)) as [Hlt|Hle].
  - right. exists text, d. auto.
  - left. exists d. auto.
Qed.

Lemma consistent_known_price s oid :
  consistent s -> oid ∈ ["12345"; "67890"; "11223"] ->
  exists p0 p q, order_price init !! oid = Some p0 /\ order_price s !! oid = Some p
                 /\ penalised p = Some q.
Proof.
  intros Hs Hid. apply known_listed in Hid as [p0 Hp0].
  pose proof (prices_known s Hs oid) as H. rewrite Hp0 in H.
  destruct H as (p & Hp & _).
  destruct (consistent_price s oid p0 p Hs Hp0 Hp) as [q c c' c0 x x0 Hq].
  eauto 10.
Qed.

(** No call raises in a consistent store, and the store stays consistent. *)
Lemma consistent_run s c :
  consistent s ->
  exists text s', run c s = Returns text s' /\ consistent s'.
Proof.
  intros Hs. destruct c as [oid|oid|today oid reason|oid reason]; cbn [run].
  - eexists _, s. split; [reflexivity | exact Hs].
  - eexists _, s. split; [reflexivity | exact Hs].
  - destruct (decide (oid ∈ ["12345"; "67890"; "11223"])) as [Hid|Hid].
    + destruct (window_cases today s oid Hs Hid) as [Hopen|Hclosed].
      * destruct (consistent_known_price s oid Hs Hid) as (p0 & p & q & Hp0 & Hp & Hq).
        rewrite (initiate_return_accepted today oid reason s p q Hid Hopen Hp Hq).
        eexists _, _. split; [reflexivity|]. eapply consistent_returned; eauto.
      * rewrite (initiate_return_refused today oid reason s Hid Hclosed). eauto.
    + rewrite (initiate_return_unknown today oid reason s Hid). eauto.
  - destruct (order_statuses s !! oid) as [st|] eqn:Hst.
    + destruct (decide (st = "Return Initiated")) as [->|Hne].
      * assert (Hp : exists p, order_price s !! oid = Some p).
        { pose proof (statuses_known s Hs oid) as H1.
          pose proof (prices_known s Hs oid) as H2.
          destruct (known_cases oid) as [ [ -> | [ -> | -> ] ] | [_ [Hn _] ] ].
          4: { rewrite Hn in H1. congruence. }
          all: destruct (order_price init !! _) eqn:E; [|vm_compute in E; discriminate].
          all: destruct H2 as (p & Hp & _); eauto. }
        destruct Hp as [p Hp].
        rewrite (cancel_return_accepted oid reason s p Hst Hp). eauto.
      * rewrite (cancel_return_refused oid reason s st Hst Hne). eauto.
    + rewrite (cancel_return_unknown oid reason s Hst). eauto.
Qed.

Lemma reachable_consistent s : reachable s -> consistent s.
Proof.
  induction 1 as [|s c _ IH]; [apply consistent_init|].
  destruct (consistent_run s c IH) as (text & s' & Hrun & Hs').
  rewrite Hrun. exact Hs'.
Qed.

Lemma reachable_run_all s cs : reachable s -> reachable (run_all cs s).
Proof.
  revert s. induction cs as [|c cs IH]; intros s Hs; cbn [run_all]; [exact Hs|].
  apply IH. now constructor.
Qed.

(** *** Frame lemmas for the accepting branch *)

Lemma returned_status oid q s oid' :
  order_statuses (returned oid q s) !! oid'
  = if decide (oid = oid') then Some "Return Initiated" else order_statuses s !! oid'.
Proof. cbn [returned order_statuses]. apply lookup_insert. Qed.

Lemma returned_price oid q s oid' :
  order_price (returned oid q s) !! oid'
  = if decide (oid = oid') then Some q else order_price s !! oid'.
Proof. cbn [returned order_price]. apply lookup_insert. Qed.

Lemma window_open_returned today oid q s oid' :
  window_open today (returned oid q s) oid' <-> window_open today s oid'.
Proof. reflexivity. Qed.

(** A call in a consistent store leaves it as it is, unless it is an
    accepted [initiate_return]. *)
Lemma run_shape s c :
  consistent s ->
  (exists text, run c s = Returns text s)
  \/ (exists today oid reason p q,
        c = InitiateReturn today oid reason
        /\ order_price s !! oid = Some p /\ penalised p = Some q
        /\ run c s = Returns ("Return initiated for order " ++ oid ++ " due to: "
                              ++ reason ++ ". Price after penalty is " ++ q ++ ".")
                             (returned oid q s)).
Proof.
  intros Hs. destruct (consistent_run s c Hs) as (text & s' & Hrun & _).
  destruct c as [oid|oid|today oid reason|oid reason]; cbn [run] in *.
  - left. eexists. reflexivity.
  - left. eexists. reflexivity.
  - destruct (decide (oid ∈ ["12345"; "67890"; "11223"])) as [Hid|Hid].
    + destruct (window_cases today s oid Hs Hid) as [Hopen|Hclosed].
      * destruct (consistent_known_price s oid Hs Hid) as (p0 & p & q & Hp0 & Hp & Hq).
        right. exists today, oid, reason, p, q.
        rewrite (initiate_return_accepted today oid reason s p q Hid Hopen Hp Hq). auto.
      * left. rewrite (initiate_return_refused today oid reason s Hid Hclosed). eauto.
    + left. rewrite (initiate_return_unknown today oid reason s Hid). eauto.
  - left. destruct (order_statuses s !! oid) as [st|] eqn:Hst.
    + destruct (decide (st = "Return Initiated")) as [->|Hne].
      * destruct (order_price s !! oid) as [p|] eqn:Hp.
        -- rewrite (cancel_return_accepted oid reason s p Hst Hp). eauto.
        -- exfalso. pose proof (statuses_known s Hs oid) as H1.
           pose proof (prices_known s Hs oid) as H2.
           destruct (known_cases oid) as [ [ -> | [ -> | -> ] ] | [_ [Hn _] ] ].
           4: { rewrite Hn in H1. congruence. }
           all: destruct (order_price init !! _) eqn:E; [|vm_compute in E; discriminate].
           all: destruct H2 as (p & Hp' & _); congruence.
      * rewrite (cancel_return_refused oid reason s st Hst Hne). eauto.
    + rewrite (cancel_return_unknown oid reason s Hst). eauto.
Qed.

Lemma status_kept_by_call s c oid :
  consistent s -> order_statuses s !! oid = Some "Return Initiated" ->
  order_statuses (state_after (run c s)) !! oid = Some "Return Initiated".
Proof.
  intros Hs Hst.
  destruct (run_shape s c Hs) as [[text Hrun]|(today & oid' & reason & p & q & _ & _ & _ & Hrun)];
    rewrite Hrun; cbn [state_after]; [exact Hst|].
  rewrite returned_status. destruct (decide (oid' = oid)); [reflexivity | exact Hst].
Qed.

Lemma status_kept_by_calls cs s oid :
  consistent s -> order_statuses s !! oid = Some "Return Initiated" ->
  order_statuses (run_all cs s) !! oid = Some "Return Initiated".
Proof.
  revert s. induction cs as [|c cs IH]; intros s Hs Hst; cbn [run_all]; [exact Hst|].
  apply IH.
  - destruct (consistent_run s c Hs) as (text & s' & Hrun & Hs'). now rewrite Hrun.
  - now apply status_kept_by_call.
Qed.

(** The seeded statuses and what the getters answer for a missing id are
    different texts. *)
Lemma consistent_status s oid st :
  consistent s -> order_statuses s !! oid = Some st ->
  st ∈ ["Shipped"; "Processing"; "Delivered"; "Return Initiated"].
Proof.
  intros Hs Hst. pose proof (statuses_known s Hs oid) as H.
  destruct (known_cases oid) as [ [ -> | [ -> | -> ] ] | [_ [Hn _] ] ].
  4: { rewrite Hn in H. congruence. }
  all: destruct (order_statuses init !! _) as [st0|] eqn:E; vm_compute in E;
    [injection E as <- | discriminate].
  all: destruct H as (st' & Hst' & Hdom); rewrite Hst in Hst'; injection Hst' as <-.
  all: unfold status_domain in Hdom; rewrite !elem_of_cons, elem_of_nil in *; tauto.
Qed.

Lemma consistent_listed s oid :
  consistent s ->
  oid ∈ ["12345"; "67890"; "11223"] <-> is_Some (order_statuses s !! oid).
Proof.
  intros Hs. pose proof (statuses_known s Hs oid) as H.
  destruct (known_cases oid) as [ [ -> | [ -> | -> ] ] | [Hn [Hst _] ] ].
  4: { rewrite Hst in H. rewrite H. split; [contradiction | intros [? ?]; discriminate]. }
  all: destruct (order_statuses init !! _) as [st0|] eqn:E; vm_compute in E; [|discriminate].
  all: destruct H as (st' & -> & _); split; [eauto | rewrite !elem_of_cons; auto].
Qed.

Lemma consistent_price_listed s oid :
  consistent s ->
  oid ∈ ["12345"; "67890"; "11223"] <-> is_Some (order_price s !! oid).
Proof.
  intros Hs. pose proof (prices_known s Hs oid) as H. rewrite known_listed.
  destruct (order_price init !! oid) as [p0|].
  - destruct H as (p & -> & _). split; eauto.
  - rewrite H. reflexivity.
Qed.

(** ** The properties of the four operations *)

(** C10: [get_order_status] and [get_total_price] only read.  For every
    store and every order id, known or not, each returns the stored text
    (or its default) and the store after the call is the store before it:
    statuses, prices, ship dates and original prices. *)
Theorem getters_only_read (s : store) (order_id : string) :
  get_order_status order_id s
  = Returns (default "Order ID not found." (order_statuses s !! order_id)) s
  /\ get_total_price order_id s
     = Returns (default "total sum price" (order_price s !! order_id)) s.
Proof. split; reflexivity. Qed.

(** C3: for an order id that is not in the store, [get_order_status],
    [get_total_price], [initiate_return] and [cancel_return] each return
    their fixed text for a missing order and leave the whole store as it
    was.  The two texts of the getters are not the status or the price of
    any order, so they cannot be taken for one. *)
Theorem unknown_order_answers (s : store) (today : date) (order_id reason : string) :
  reachable s ->
  order_statuses s !! order_id = None ->
  get_order_status order_id s = Returns "Order ID not found." s
  /\ get_total_price order_id s = Returns "total sum price" s
  /\ initiate_return today order_id reason s
     = Returns "Order ID not found. Cannot initiate return." s
  /\ cancel_return order_id reason s
     = Returns "Order ID not found. Cannot cancel return." s
  /\ (forall other st, order_statuses s !! other = Some st -> st <> "Order ID not found.")
  /\ (forall other p, order_price s !! other = Some p -> p <> "total sum price").
Proof.
  intros Hreach Hstatus. pose proof (reachable_consistent s Hreach) as Hs.
  assert (Hid : order_id ∉ ["12345"; "67890"; "11223"]).
  { rewrite (consistent_listed s order_id Hs), Hstatus. intros [? ?]; discriminate. }
  assert (Hprice : order_price s !! order_id = None).
  { destruct (order_price s !! order_id) eqn:E; [|reflexivity].
    exfalso. apply Hid. apply (consistent_price_listed s order_id Hs). rewrite E. eauto. }
  repeat split.
  - cbv [get_order_status read]. now rewrite Hstatus.
  - cbv [get_total_price read]. now rewrite Hprice.
  - now apply initiate_return_unknown.
  - now apply cancel_return_unknown.
  - intros other st Hst. pose proof (consistent_status s other st Hs Hst) as Hdom.
    rewrite !elem_of_cons, elem_of_nil in Hdom.
    destruct Hdom as [->|[->|[->|[->|[]]]]]; discriminate.
  - intros other p Hp ->.
    assert (His : is_Some (order_price init !! other)).
    { apply known_listed, (consistent_price_listed s other Hs). eauto. }
    destruct His as [p0 Hp0].
    destruct (consistent_price s other p0 _ Hs Hp0 Hp) as [q c c' c0 x x0 _ _ Hc].
    vm_compute in Hc. discriminate.
Qed.

Lemma unknown_order_answers_witness :
  order_statuses init !! "99999" = None
  /\ get_order_status "99999" init = Returns "Order ID not found." init
  /\ get_total_price "99999" init = Returns "total sum price" init
  /\ initiate_return (Date 2025 2 25) "99999" "damaged" init
     = Returns "Order ID not found. Cannot initiate return." init
  /\ cancel_return "99999" "damaged" init
     = Returns "Order ID not found. Cannot cancel return." init
  /\ (forall other st, order_statuses init !! other = Some st -> st <> "Order ID not found.")
  /\ (forall other p, order_price init !! other = Some p -> p <> "total sum price").
Proof.
  split; [reflexivity|].
  apply (unknown_order_answers init (Date 2025 2 25) "99999" "damaged");
    [constructor | reflexivity].
Defined.

(** C4: for a known order whose ship date is more than ten days before
    today, [initiate_return] returns the text that explains the refusal and
    the store after the call is the store before it; status and price of
    the order, like everything else, are unchanged. *)
Theorem late_return_refused (s : store) (today : date) (order_id reason : string) :
  reachable s ->
  is_Some (order_statuses s !! order_id) ->
  window_closed today s order_id ->
  initiate_return today order_id reason s
  = Returns ("Return cannot be initiated for order " ++ order_id
             ++ " as it has been more than 10 days since shipping.") s.
Proof.
  intros Hreach Hknown Hclosed. pose proof (reachable_consistent s Hreach) as Hs.
  apply initiate_return_refused; [|exact Hclosed].
  now apply (consistent_listed s order_id Hs).
Qed.

Lemma late_return_refused_witness :
  window_closed (Date 2025 2 25) init "11223"
  /\ initiate_return (Date 2025 2 25) "11223" "damaged" init
     = Returns "Return cannot be initiated for order 11223 as it has been more than 10 days since shipping."
         init.
Proof.
  assert (Hclosed : window_closed (Date 2025 2 25) init "11223").
  { exists "2/2/25", (Date 2025 2 2).
    split; [reflexivity|]. split; [discriminate|]. split; [reflexivity|].
    vm_compute. reflexivity. }
  split; [exact Hclosed|].
  apply (late_return_refused init (Date 2025 2 25) "11223" "damaged");
    [constructor | eexists; reflexivity | exact Hclosed].
Defined.

(** C5: for a known order whose status is not "Return Initiated",
    [cancel_return] returns the text that explains the refusal and writes
    nothing: the store after the call is the store before it. *)
Theorem cancel_refused_without_return (s : store) (order_id reason st : string) :
  order_statuses s !! order_id = Some st ->
  st <> "Return Initiated" ->
  cancel_return order_id reason s
  = Returns ("Order " ++ order_id
             ++ " is not in 'Return Initiated' status. Cannot cancel return.") s.
Proof. apply cancel_return_refused. Qed.

Lemma cancel_refused_without_return_witness :
  cancel_return "12345" "changed mind" init
  = Returns "Order 12345 is not in 'Return Initiated' status. Cannot cancel return." init.
Proof.
  apply (cancel_refused_without_return init "12345" "changed mind" "Shipped");
    [reflexivity | discriminate].
Defined.

(** C2: an accepted [initiate_return] (the order is known, and it has no
    ship date or one at most ten days before today) sets the status of the
    order to "Return Initiated" and its price to 0.98 times the price it
    had just before the call, rounded to two decimal places; the text it
    returns holds the order id, the reason and the new price.  Nothing else
    in the store changes.  From the price 79$, as order 67890 has it at
    first, the new price is 77.42$. *)
Theorem accepted_return_applies_penalty
    (s : store) (today : date) (order_id reason p : string) :
  reachable s ->
  order_price s !! order_id = Some p ->
  window_open today s order_id ->
  exists (q : string) (c c' : Z),
    initiate_return today order_id reason s
    = Returns ("Return initiated for order " ++ order_id ++ " due to: " ++ reason
               ++ ". Price after penalty is " ++ q ++ ".")
              (returned order_id q s)
    /\ order_statuses (returned order_id q s) !! order_id = Some "Return Initiated"
    /\ order_price (returned order_id q s) !! order_id = Some q
    /\ cents p = Some c /\ cents q = Some c' /\ rounds_to c c'
    /\ (p = "79$" -> q = "77.42$").
Proof.
  intros Hreach Hp Hopen. pose proof (reachable_consistent s Hreach) as Hs.
  assert (Hid : order_id ∈ ["12345"; "67890"; "11223"]).
  { apply (consistent_price_listed s order_id Hs). eauto. }
  destruct (proj1 (known_listed order_id) Hid) as [p0 Hp0].
  destruct (consistent_price s order_id p0 p Hs Hp0 Hp)
    as [q c c' c0 x x0 Hq _ Hc Hc' _ Hround].
  exists q, c, c'. repeat split; auto.
  - now apply (initiate_return_accepted today order_id reason s p q).
  - rewrite returned_status. now rewrite decide_True.
  - rewrite returned_price. now rewrite decide_True.
  - intros ->. vm_compute in Hq. now injection Hq as <-.
Qed.

Lemma accepted_return_applies_penalty_witness :
  window_open (Date 2025 2 25) init "67890"
  /\ exists q c c',
       initiate_return (Date 2025 2 25) "67890" "wrong item" init
       = Returns ("Return initiated for order 67890 due to: wrong item"
                  ++ ". Price after penalty is " ++ q ++ ".")
                 (returned "67890" q init)
       /\ order_statuses (returned "67890" q init) !! "67890" = Some "Return Initiated"
       /\ order_price (returned "67890" q init) !! "67890" = Some q
       /\ cents "79$" = Some c /\ cents q = Some c' /\ rounds_to c c'
       /\ ("79$" = "79$" -> q = "77.42$").
Proof.
  assert (Hopen : window_open (Date 2025 2 25) init "67890").
  { exists (Date 2025 2 24). split; [reflexivity | vm_compute; discriminate]. }
  split; [exact Hopen|].
  apply (accepted_return_applies_penalty init (Date 2025 2 25) "67890" "wrong item" "79$");
    [constructor | reflexivity | exact Hopen].
Defined.

(** C6: in every state reached from the seeded one by calls of the four
    operations, the price of each order is at most its original price,
    the one copied at construction (which no call changes), both as
    decimal amounts and as the numbers [float] reads from the two texts. *)
Theorem price_at_most_original (s : store) (order_id p0 : string) :
  reachable s ->
  original_prices s !! order_id = Some p0 ->
  original_prices init !! order_id = Some p0
  /\ exists (p : string) (c c0 : Z) (x x0 : PyFloat.float),
       order_price s !! order_id = Some p
       /\ cents p = Some c /\ cents p0 = Some c0 /\ c <= c0
       /\ amount p = Some x /\ amount p0 = Some x0 /\ PyFloat.fleb x x0 = true.
Proof.
  intros Hreach Hp0. pose proof (reachable_consistent s Hreach) as Hs.
  rewrite (originals_fixed s Hs) in Hp0. split; [exact Hp0|].
  change (original_prices init) with (order_price init) in Hp0.
  pose proof (prices_known s Hs order_id) as H. rewrite Hp0 in H.
  destruct H as (p & Hp & _).
  destruct (consistent_price s order_id p0 p Hs Hp0 Hp)
    as [q c c' c0 x x0 _ _ Hc _ Hc0 _ Hle Hx Hx0 Hfle].
  exists p, c, c0, x, x0. repeat split; auto. lia.
Qed.

Lemma price_at_most_original_witness :
  original_prices (returned "67890" "77.42$" init) !! "67890" = Some "79$"
  /\ exists p c c0 x x0,
       order_price (returned "67890" "77.42$" init) !! "67890" = Some p
       /\ cents p = Some c /\ cents "79$" = Some c0 /\ c <= c0
       /\ amount p = Some x /\ amount "79$" = Some x0 /\ PyFloat.fleb x x0 = true.
Proof.
  split; [reflexivity|].
  apply (price_at_most_original (returned "67890" "77.42$" init) "67890" "79$").
  - pose proof (reachable_call init (InitiateReturn (Date 2025 2 25) "67890" "wrong item")
                  reachable_init) as H.
    cbn [run] in H.
    rewrite (initiate_return_accepted (Date 2025 2 25) "67890" "wrong item" init
               "79$" "77.42$") in H; [exact H | | | reflexivity | vm_compute; reflexivity].
    + rewrite !elem_of_cons; auto.
    + exists (Date 2025 2 24). split; [reflexivity | vm_compute; discriminate].
  - reflexivity.
Defined.

(** C8: each of the four operations, at every order id, reason and date,
    returns a text that is not empty and raises nothing, in every state a
    manager object can be in. *)
Theorem every_call_returns_text (s : store) (c : call) :
  reachable s ->
  exists (text : string) (s' : store), run c s = Returns text s' /\ text <> "".
Proof.
  intros Hreach. pose proof (reachable_consistent s Hreach) as Hs.
  destruct (run_shape s c Hs) as [[text Hrun]|(today & oid & reason & p & q & _ & _ & _ & Hrun)].
  2: { rewrite Hrun. eexists _, _. split; [reflexivity | discriminate]. }
  exists text, s. split; [exact Hrun|].
  destruct c as [oid|oid|today oid reason|oid reason]; cbn [run] in Hrun.
  - cbv [get_order_status read] in Hrun. injection Hrun as <-.
    destruct (order_statuses s !! oid) as [st|] eqn:Hst; [|discriminate].
    pose proof (consistent_status s oid st Hs Hst) as Hdom.
    rewrite !elem_of_cons, elem_of_nil in Hdom.
    destruct Hdom as [->|[->|[->|[->|[]]]]]; discriminate.
  - cbv [get_total_price read] in Hrun. injection Hrun as <-.
    destruct (order_price s !! oid) as [p|] eqn:Hp; [|discriminate].
    assert (His : is_Some (order_price init !! oid)).
    { apply known_listed, (consistent_price_listed s oid Hs). eauto. }
    destruct His as [p0 Hp0].
    destruct (consistent_price s oid p0 p Hs Hp0 Hp) as [q c c' c0 x x0 _ _ _ _ _ _ _ _ _ _ Hne].
    exact Hne.
  - destruct (decide (oid ∈ ["12345"; "67890"; "11223"])) as [Hid|Hid].
    + destruct (window_cases today s oid Hs Hid) as [Hopen|Hclosed].
      * destruct (consistent_known_price s oid Hs Hid) as (p0 & p & q & Hp0 & Hp & Hq).
        rewrite (initiate_return_accepted today oid reason s p q Hid Hopen Hp Hq) in Hrun.
        injection Hrun as <- _. discriminate.
      * rewrite (initiate_return_refused today oid reason s Hid Hclosed) in Hrun.
        injection Hrun as <-. discriminate.
    + rewrite (initiate_return_unknown today oid reason s Hid) in Hrun.
      injection Hrun as <-. discriminate.
  - destruct (order_statuses s !! oid) as [st|] eqn:Hst.
    + destruct (decide (st = "Return Initiated")) as [->|Hne].
      * destruct (order_price s !! oid) as [p|] eqn:Hp.
        -- rewrite (cancel_return_accepted oid reason s p Hst Hp) in Hrun.
           injection Hrun as <-. discriminate.
        -- exfalso. assert (His : is_Some (order_price s !! oid)).
           { apply (consistent_price_listed s oid Hs), (consistent_listed s oid Hs). eauto. }
           rewrite Hp in His. destruct His; discriminate.
      * rewrite (cancel_return_refused oid reason s st Hst Hne) in Hrun.
        injection Hrun as <-. discriminate.
    + rewrite (cancel_return_unknown oid reason s Hst) in Hrun.
      injection Hrun as <-. discriminate.
Qed.

Lemma every_call_returns_text_witness :
  exists text s',
    run (InitiateReturn (Date 2025 2 25) "67890" "") init = Returns text s' /\ text <> "".
Proof.
  apply (every_call_returns_text init (InitiateReturn (Date 2025 2 25) "67890" "")).
  constructor.
Defined.

Lemma success_text_only_when_returned s oid reason text s' :
  cancel_return oid reason s = Returns text s' ->
  String.prefix "Return cancellation initiated" text = true ->
  order_statuses s !! oid = Some "Return Initiated".
Proof.
  intros Hrun Hprefix.
  destruct (order_statuses s !! oid) as [st|] eqn:Hst.
  - destruct (decide (st = "Return Initiated")) as [->|Hne]; [reflexivity|].
    rewrite (cancel_return_refused oid reason s st Hst Hne) in Hrun.
    injection Hrun as <- _. discriminate.
  - rewrite (cancel_return_unknown oid reason s Hst) in Hrun.
    injection Hrun as <- _. discriminate.
Qed.

(** C9: a [cancel_return] that returns the text of a cancellation
    ("Return cancellation initiated ...") has written the status and the
    price of the order over themselves: the store is the one before the
    call, the status is still "Return Initiated" and the price is what it
    was.  So a status that has become "Return Initiated" stays so under
    every sequence of calls of the four operations, and [cancel_return] on
    the same order succeeds again. *)
Theorem cancel_return_changes_nothing
    (s : store) (order_id reason text : string) (s' : store) :
  reachable s ->
  cancel_return order_id reason s = Returns text s' ->
  String.prefix "Return cancellation initiated" text = true ->
  s' = s
  /\ order_statuses s' !! order_id = Some "Return Initiated"
  /\ order_price s' !! order_id = order_price s !! order_id
  /\ (forall s1 other cs,
        reachable s1 ->
        order_statuses s1 !! other = Some "Return Initiated" ->
        order_statuses (run_all cs s1) !! other = Some "Return Initiated")
  /\ (forall cs reason',
        exists p,
          cancel_return order_id reason' (run_all cs s')
          = Returns ("Return cancellation initiated for order " ++ order_id
                     ++ " due to: " ++ reason' ++ ". Price reset to " ++ p ++ ".")
                    (run_all cs s')).
Proof.
  intros Hreach Hrun Hprefix. pose proof (reachable_consistent s Hreach) as Hs.
  pose proof (success_text_only_when_returned s order_id reason text s' Hrun Hprefix) as Hst.
  assert (Hsame : s' = s).
  { assert (Hp : is_Some (order_price s !! order_id)).
    { apply (consistent_price_listed s order_id Hs), (consistent_listed s order_id Hs). eauto. }
    destruct Hp as [p Hp].
    rewrite (cancel_return_accepted order_id reason s p Hst Hp) in Hrun.
    now injection Hrun as _ <-. }
  subst s'. repeat split; auto.
  - intros s1 other cs Hreach1. apply status_kept_by_calls.
    now apply reachable_consistent.
  - intros cs reason'.
    pose proof (reachable_consistent _ (reachable_run_all s cs Hreach)) as Hs'.
    pose proof (status_kept_by_calls cs s order_id Hs Hst) as Hst'.
    assert (Hp : is_Some (order_price (run_all cs s) !! order_id)).
    { apply (consistent_price_listed _ order_id Hs'), (consistent_listed _ order_id Hs'). eauto. }
    destruct Hp as [p Hp]. exists p.
    now apply cancel_return_accepted.
Qed.

Lemma cancel_return_changes_nothing_witness :
  cancel_return "67890" "changed mind" (returned "67890" "77.42$" init)
  = Returns "Return cancellation initiated for order 67890 due to: changed mind. Price reset to 77.42$."
      (returned "67890" "77.42$" init)
  /\ order_statuses (returned "67890" "77.42$" init) !! "67890" = Some "Return Initiated"
  /\ order_price (returned "67890" "77.42$" init) !! "67890" = Some "77.42$"
  /\ (forall cs reason',
        exists p,
          cancel_return "67890" reason' (run_all cs (returned "67890" "77.42$" init))
          = Returns ("Return cancellation initiated for order 67890"
                     ++ " due to: " ++ reason' ++ ". Price reset to " ++ p ++ ".")
                    (run_all cs (returned "67890" "77.42$" init))).
Proof.
  assert (Hreach : reachable (returned "67890" "77.42$" init)).
  { pose proof (reachable_call init (InitiateReturn (Date 2025 2 25) "67890" "wrong item")
                  reachable_init) as H.
    cbn [run] in H.
    rewrite (initiate_return_accepted (Date 2025 2 25) "67890" "wrong item" init
               "79$" "77.42$") in H; [exact H | | | reflexivity | vm_compute; reflexivity].
    + rewrite !elem_of_cons; auto.
    + exists (Date 2025 2 24). split; [reflexivity | vm_compute; discriminate]. }
  assert (Hrun : cancel_return "67890" "changed mind" (returned "67890" "77.42$" init)
                 = Returns "Return cancellation initiated for order 67890 due to: changed mind. Price reset to 77.42$."
                     (returned "67890" "77.42$" init)).
  { apply (cancel_return_accepted "67890" "changed mind" _ "77.42$"); reflexivity. }
  destruct (cancel_return_changes_nothing (returned "67890" "77.42$" init) "67890"
              "changed mind" _ _ Hreach Hrun eq_refl) as (_ & Hst & Hp & _ & Hagain).
  split; [exact Hrun|]. split; [exact Hst|]. split; [exact Hp|]. exact Hagain.
Defined.

Lemma worn_store_price : order_price worn_store !! "67890" = Some "0.24$".
Proof. vm_compute. reflexivity. Qed.

Lemma worn_store_reachable : reachable worn_store.
Proof. apply reachable_run_all. constructor. Qed.

Lemma listed_67890 : "67890" ∈ ["12345"; "67890"; "11223"].
Proof. right. left. Qed.

Lemma returned_price_same oid q s : order_price (returned oid q s) !! oid = Some q.
Proof. cbn [returned order_price]. apply lookup_insert_eq. Qed.

(** C7, as stated: the price after a second accepted [initiate_return] is
    not always different from the price after the first.  Once order 67890
    is at 0.24$, the penalised price 0.2352 is printed as 0.24 again. *)
Lemma second_return_keeps_floor_price :
  reachable worn_store
  /\ window_open (Date 2025 2 25) worn_store "67890"
  /\ exists text1 s1 text2 s2,
       initiate_return (Date 2025 2 25) "67890" "wrong item" worn_store = Returns text1 s1
       /\ initiate_return (Date 2025 2 25) "67890" "wrong item" s1 = Returns text2 s2
       /\ order_price s1 !! "67890" = Some "0.24$"
       /\ order_price s2 !! "67890" = Some "0.24$".
Proof.
  assert (Hq : penalised "0.24$" = Some "0.24$") by (vm_compute; reflexivity).
  assert (Hopen : window_open (Date 2025 2 25) worn_store "67890").
  { unfold window_open.
    rewrite (shipped_fixed _ (reachable_consistent _ worn_store_reachable)).
    exists (Date 2025 2 24). split; [reflexivity | vm_compute; discriminate]. }
  split; [exact worn_store_reachable|]. split; [exact Hopen|].
  eexists _, (returned "67890" "0.24$" worn_store), _,
    (returned "67890" "0.24$" (returned "67890" "0.24$" worn_store)).
  split; [|split; [|split]].
  - exact (initiate_return_accepted _ _ _ _ _ _ listed_67890 Hopen worn_store_price Hq).
  - exact (initiate_return_accepted _ _ _ _ _ _ listed_67890
             (proj2 (window_open_returned _ _ _ _ _) Hopen)
             (returned_price_same _ _ _) Hq).
  - apply returned_price_same.
  - apply returned_price_same.
Qed.

(** C7, amended: [initiate_return] is not idempotent.  Called twice in
    succession on an order within its return window, it applies the
    penalty a second time, to the price the first call left: the price
    after the second call is 0.98 times the price after the first, rounded
    to two decimal places.  The two prices differ unless the first call
    left 0.24$, the price at which the penalty is lost in the rounding. *)
Theorem repeated_return_compounds
    (s : store) (today1 today2 : date) (order_id reason1 reason2 p : string) :
  reachable s ->
  order_price s !! order_id = Some p ->
  window_open today1 s order_id ->
  window_open today2 s order_id ->
  exists (q1 q2 : string) (c1 c2 : Z),
    initiate_return today1 order_id reason1 s
    = Returns ("Return initiated for order " ++ order_id ++ " due to: " ++ reason1
               ++ ". Price after penalty is " ++ q1 ++ ".")
              (returned order_id q1 s)
    /\ order_price (returned order_id q1 s) !! order_id = Some q1
    /\ initiate_return today2 order_id reason2 (returned order_id q1 s)
       = Returns ("Return initiated for order " ++ order_id ++ " due to: " ++ reason2
                  ++ ". Price after penalty is " ++ q2 ++ ".")
                 (returned order_id q2 (returned order_id q1 s))
    /\ order_price (returned order_id q2 (returned order_id q1 s)) !! order_id = Some q2
    /\ penalised p = Some q1 /\ penalised q1 = Some q2
    /\ cents q1 = Some c1 /\ cents q2 = Some c2 /\ rounds_to c1 c2
    /\ (q1 <> "0.24$" -> q2 <> q1).
Proof.
  intros Hreach Hp Hopen1 Hopen2. pose proof (reachable_consistent s Hreach) as Hs.
  assert (Hid : order_id ∈ ["12345"; "67890"; "11223"]).
  { apply (consistent_price_listed s order_id Hs). eauto. }
  destruct (proj1 (known_listed order_id) Hid) as [p0 Hp0].
  destruct (consistent_price s order_id p0 p Hs Hp0 Hp) as [q1 c c1' c0 x x0 Hq1 _ _ _ _ _].
  pose proof (consistent_returned s order_id p q1 Hs Hp Hq1) as Hs1.
  assert (Hp1 : order_price (returned order_id q1 s) !! order_id = Some q1).
  { rewrite returned_price. now rewrite decide_True. }
  destruct (consistent_price _ order_id p0 q1 Hs1 Hp0 Hp1)
    as [q2 c1 c2 c0' x1 x0' Hq2 _ Hc1 Hc2 _ Hround _ _ _ _ _ _ Hmoves].
  exists q1, q2, c1, c2. repeat split; auto.
  - now apply (initiate_return_accepted today1 order_id reason1 s p q1).
  - now apply (initiate_return_accepted today2 order_id reason2 _ q1 q2).
  - rewrite returned_price. now rewrite decide_True.
Qed.

Lemma repeated_return_compounds_witness :
  exists q1 q2 c1 c2,
    initiate_return (Date 2025 2 25) "67890" "wrong item" init
    = Returns ("Return initiated for order 67890 due to: wrong item"
               ++ ". Price after penalty is " ++ q1 ++ ".")
              (returned "67890" q1 init)
    /\ order_price (returned "67890" q1 init) !! "67890" = Some q1
    /\ initiate_return (Date 2025 2 26) "67890" "still wrong" (returned "67890" q1 init)
       = Returns ("Return initiated for order 67890 due to: still wrong"
                  ++ ". Price after penalty is " ++ q2 ++ ".")
                 (returned "67890" q2 (returned "67890" q1 init))
    /\ order_price (returned "67890" q2 (returned "67890" q1 init)) !! "67890" = Some q2
    /\ penalised "79$" = Some q1 /\ penalised q1 = Some q2
    /\ cents q1 = Some c1 /\ cents q2 = Some c2 /\ rounds_to c1 c2
    /\ (q1 <> "0.24$" -> q2 <> q1).
Proof.
  apply (repeated_return_compounds init (Date 2025 2 25) (Date 2025 2 26)
           "67890" "wrong item" "still wrong" "79$").
  - constructor.
  - reflexivity.
  - exists (Date 2025 2 24). split; [reflexivity | vm_compute; discriminate].
  - exists (Date 2025 2 24). split; [reflexivity | vm_compute; discriminate].
Defined.

(** C1: on the seeded store, with today one day after order 67890 was
    shipped, [initiate_return] is accepted and the [cancel_return] that
    follows succeeds, yet the order keeps the status "Return Initiated" and
    the penalised price 77.42$: neither the status "Processing" nor the
    price 79$ it had before the return comes back. *)
Theorem cancel_after_return_restores_nothing :
  exists (text1 text2 : string) (s1 : store),
    initiate_return (Date 2025 2 25) "67890" "wrong item" init = Returns text1 s1
    /\ cancel_return "67890" "changed mind" s1 = Returns text2 s1
    /\ String.prefix "Return cancellation initiated" text2 = true
    /\ order_statuses init !! "67890" = Some "Processing"
    /\ order_price init !! "67890" = Some "79$"
    /\ order_statuses s1 !! "67890" = Some "Return Initiated"
    /\ order_price s1 !! "67890" = Some "77.42$"
    /\ original_prices s1 !! "67890" = Some "79$".
Proof.
  eexists _, _, (returned "67890" "77.42$" init).
  split; [|split; [|repeat split]].
  - apply (initiate_return_accepted _ _ _ _ "79$" "77.42$");
      [rewrite !elem_of_cons; auto | | reflexivity | vm_compute; reflexivity].
    exists (Date 2025 2 24). split; [reflexivity | vm_compute; discriminate].
  - apply (cancel_return_accepted "67890" "changed mind" _ "77.42$"); reflexivity.
  - reflexivity.
Qed.

(** ** Further properties of the store *)

Import Further.

(** Every way a call can end, in any store at all. *)
Ltac explode_call :=
  cbv [run get_order_status get_total_price initiate_return cancel_return
       window_check getitem set_status set_price or_value_error
       bind read write ret raise];
  repeat (case_match; simplify_eq); cbn [state_after order_statuses order_price
                          order_shipped original_prices].

(** X1: no method writes the ship dates or the copy of the original prices.
    Whatever the store and the call, and also when the call raises, both
    dictionaries are after the call what they were before. *)
Theorem ship_dates_and_originals_never_written (s : store) (c : call) :
  order_shipped (state_after (run c s)) = order_shipped s
  /\ original_prices (state_after (run c s)) = original_prices s.
Proof. destruct c; explode_call; split; reflexivity. Qed.

(** X2: a call reads and writes the entries of its own order only.  For
    every store and every call, also one that raises, the status and the
    price of any other order are untouched. *)
Theorem other_orders_untouched (s : store) (c : call) (other : string) :
  other <> order_of c ->
  order_statuses (state_after (run c s)) !! other = order_statuses s !! other
  /\ order_price (state_after (run c s)) !! other = order_price s !! other.
Proof.
  intros Hother. destruct c; cbn [order_of] in Hother; explode_call;
    rewrite ?lookup_insert_ne by congruence; split; reflexivity.
Qed.

Lemma other_orders_untouched_witness :
  order_statuses (state_after (run (InitiateReturn (Date 2025 2 25) "67890" "wrong item") init))
    !! "12345" = order_statuses init !! "12345"
  /\ order_price (state_after (run (InitiateReturn (Date 2025 2 25) "67890" "wrong item") init))
       !! "12345" = order_price init !! "12345".
Proof.
  apply (other_orders_untouched init (InitiateReturn (Date 2025 2 25) "67890" "wrong item")
           "12345").
  discriminate.
Defined.

(** *** What holds in every state of a manager object *)







(** X6: no call ever raises a price.  For every reachable state, call and
    order, the price after the call is at most the price before it. *)
Theorem no_call_raises_a_price (s : store) (c : call) (order_id p p' : string) :
  reachable s ->
  order_price s !! order_id = Some p ->
  order_price (state_after (run c s)) !! order_id = Some p' ->
  exists n n' : Z, cents p = Some n /\ cents p' = Some n' /\ n' <= n.
Proof.
  intros Hreach Hp Hp'. pose proof (reachable_consistent s Hreach) as Hs.
  assert (His : is_Some (order_price init !! order_id)).
  { apply known_listed, (consistent_price_listed s order_id Hs). eauto. }
  destruct His as [p0 Hp0].
  destruct (consistent_price s order_id p0 p Hs Hp0 Hp)
    as [q n n' n0 x x0 Hq _ Hn Hn' _ Hround Hrange].
  destruct (run_shape s c Hs)
    as [[text Hrun]|(today & oid & reason & p1 & q1 & _ & Hp1 & Hq1 & Hrun)];
    rewrite Hrun in Hp'; cbn [state_after] in Hp'.
  - rewrite Hp in Hp'. injection Hp' as <-. exists n, n. auto with zarith.
  - rewrite returned_price in Hp'. destruct (decide (oid = order_id)) as [->|Hne].
    + injection Hp' as <-. rewrite Hp in Hp1. injection Hp1 as <-.
      rewrite Hq in Hq1. injection Hq1 as <-.
      exists n, n'. unfold rounds_to in Hround. repeat split; auto. lia.
    + rewrite Hp in Hp'. injection Hp' as <-. exists n, n. auto with zarith.
Qed.

Lemma no_call_raises_a_price_witness :
  order_price (state_after (run (InitiateReturn (Date 2025 2 25) "67890" "wrong item") init))
    !! "67890" = Some "77.42$"
  /\ exists n n' : Z, cents "79$" = Some n /\ cents "77.42$" = Some n' /\ n' <= n.
Proof.
  assert (Hafter : order_price
                     (state_after (run (InitiateReturn (Date 2025 2 25) "67890" "wrong item") init))
                     !! "67890" = Some "77.42$") by (vm_compute; reflexivity).
  split; [exact Hafter|].
  apply (no_call_raises_a_price init (InitiateReturn (Date 2025 2 25) "67890" "wrong item")
           "67890" "79$" "77.42$"); [constructor | reflexivity | exact Hafter].
Defined.

(** *** Checks over the prices an order can hold *)

Lemma domain_check (f : string -> bool) (s : store) (order_id p : string) :
  (forall p0, p0 ∈ ["500$"; "79$"; "900$"] -> forallb f (price_domain p0) = true) ->
  consistent s -> order_price s !! order_id = Some p -> f p = true.
Proof.
  intros Hall Hs Hp.
  assert (His : is_Some (order_price init !! order_id)).
  { apply known_listed, (consistent_price_listed s order_id Hs). eauto. }
  destruct His as [p0 Hp0].
  pose proof (prices_known s Hs order_id) as H. rewrite Hp0 in H.
  destruct H as (p' & Hp' & Hdom). rewrite Hp in Hp'. injection Hp' as <-.
  eapply forallb_elem; [apply Hall; eauto using seed_prices | exact Hdom].
Qed.

Lemma above_floor_everywhere p0 :
  p0 ∈ ["500$"; "79$"; "900$"] -> forallb above_floor (price_domain p0) = true.
Proof.
  intros Hp0. repeat (apply elem_of_cons in Hp0 as [->|Hp0]); [vm_compute; reflexivity ..|].
  apply elem_of_nil in Hp0. contradiction.
Qed.

Lemma reads_back_everywhere p0 :
  p0 ∈ ["500$"; "79$"; "900$"] -> forallb reads_back (price_domain p0) = true.
Proof.
  intros Hp0. repeat (apply elem_of_cons in Hp0 as [->|Hp0]); [vm_compute; reflexivity ..|].
  apply elem_of_nil in Hp0. contradiction.
Qed.

(** X7: the penalty never brings a price to nothing.  In every reachable
    state every price is at least 0.24 of the currency unit; so no price
    is zero or negative, however often an order is returned. *)
Theorem price_never_below_floor (s : store) (order_id p : string) :
  reachable s ->
  order_price s !! order_id = Some p ->
  exists n : Z, cents p = Some n /\ 24 <= n.
Proof.
  intros Hreach Hp. pose proof (reachable_consistent s Hreach) as Hs.
  pose proof (domain_check above_floor s order_id p above_floor_everywhere Hs Hp) as H.
  unfold above_floor in H. destruct (cents p) as [n|]; [|discriminate].
  exists n. split; [reflexivity | lia].
Qed.

Lemma price_never_below_floor_witness :
  order_price worn_store !! "67890" = Some "0.24$"
  /\ exists n : Z, cents "0.24$" = Some n /\ 24 <= n.
Proof.
  split; [exact worn_store_price|].
  apply (price_never_below_floor worn_store "67890" "0.24$");
    [exact worn_store_reachable | exact worn_store_price].
Defined.

(** X9: a price that [initiate_return] writes is read back as written.  The
    text it stores, [float] of it with the currency sign stripped, and
    that number printed with [.2f] and the sign again are the same text:
    writing and reading a price loses nothing. *)
Theorem written_price_reads_back (s : store) (order_id p q : string) :
  reachable s ->
  order_price s !! order_id = Some p ->
  penalised p = Some q ->
  exists y : PyFloat.float,
    PyFloat.of_string (PyStr.rstrip "$" q) = Some y
    /\ PyFloat.format_2f y ++ "$" = q.
Proof.
  intros Hreach Hp Hq. pose proof (reachable_consistent s Hreach) as Hs.
  pose proof (domain_check reads_back s order_id p reads_back_everywhere Hs Hp) as H.
  unfold reads_back in H. rewrite Hq in H. unfold amount in H.
  destruct (PyFloat.of_string (PyStr.rstrip "$" q)) as [y|]; [|discriminate].
  exists y. split; [reflexivity | now apply String.eqb_eq].
Qed.

Lemma written_price_reads_back_witness :
  exists y : PyFloat.float,
    PyFloat.of_string (PyStr.rstrip "$" "77.42$") = Some y
    /\ PyFloat.format_2f y ++ "$" = "77.42$".
Proof.
  apply (written_price_reads_back init "67890" "79$" "77.42$");
    [constructor | reflexivity | vm_compute; reflexivity].
Defined.

(** The seeded prices themselves are not of that form: [float] reads 79
    from "79$", and [.2f] prints it as "79.00". *)
Example seeded_price_is_not_printed_form :
  amount "79$" = Some (PyFloat.of_ratio false 79 1)
  /\ PyFloat.format_2f (PyFloat.of_ratio false 79 1) ++ "$" = "79.00$".
Proof. split; vm_compute; reflexivity. Qed.

(** *** Status and price move together *)








(** *** Dates *)

Lemma days_before_year_succ y :
  days_before_year (y + 1) = days_before_year y + 365 + (if is_leap y then 1 else 0).
Proof.
  unfold days_before_year, is_leap.
  replace (y + 1 - 1) with y by lia.
  destruct (Z.eqb_spec (y mod 4) 0) as [H4|H4];
    destruct (Z.eqb_spec (y mod 100) 0) as [H100|H100];
    destruct (Z.eqb_spec (y mod 400) 0) as [H400|H400];
    cbn [andb orb negb]; Z.to_euclidean_division_equations; lia.
Qed.

Lemma days_before_year_mono y y' : y <= y' -> days_before_year y <= days_before_year y'.
Proof. unfold days_before_year. intros H. Z.to_euclidean_division_equations. lia. Qed.

Lemma month_cases m :
  1 <= m <= 12 ->
  m = 1 \/ m = 2 \/ m = 3 \/ m = 4 \/ m = 5 \/ m = 6
  \/ m = 7 \/ m = 8 \/ m = 9 \/ m = 10 \/ m = 11 \/ m = 12.
Proof. lia. Qed.

Lemma valid_fields d :
  valid d = true ->
  1 <= year d <= 9999 /\ 1 <= month d <= 12
  /\ 1 <= day d <= days_in_month (year d) (month d).
Proof. unfold valid. rewrite !andb_true_iff, !Z.leb_le. tauto. Qed.

(** The day of the year of a date lies within its year. *)
Lemma day_of_year_bounds y m d :
  1 <= m <= 12 -> 1 <= d <= days_in_month y m ->
  1 <= days_before_month y m + d <= 365 + (if is_leap y then 1 else 0).
Proof.
  intros Hm Hd. unfold days_before_month, days_in_month in *.
  destruct (is_leap y);
    destruct (month_cases m Hm) as [->|[->|[->|[->|[->|[->|[->|[->|[->|[->|[->| ->]]]]]]]]]]];
    cbv -[Z.le Z.lt Z.add] in *; lia.
Qed.

(** Within a year, a later month starts after the earlier month ends. *)
Lemma month_starts_after y m m' d :
  1 <= m -> m < m' -> m' <= 12 -> d <= days_in_month y m ->
  days_before_month y m + d <= days_before_month y m'.
Proof.
  intros Hm Hlt Hm' Hd. unfold days_before_month, days_in_month in *.
  assert (Hc : 1 <= m <= 12) by lia. assert (Hc' : 1 <= m' <= 12) by lia.
  destruct (is_leap y);
    destruct (month_cases m Hc) as [->|[->|[->|[->|[->|[->|[->|[->|[->|[->|[->| ->]]]]]]]]]]];
    destruct (month_cases m' Hc') as [->|[->|[->|[->|[->|[->|[->|[->|[->|[->|[->| ->]]]]]]]]]]];
    try lia; cbv -[Z.le Z.lt Z.add] in *; lia.
Qed.

Lemma toordinal_lt_of_earlier a b :
  valid a = true -> valid b = true ->
  year a < year b
  \/ (year a = year b
      /\ (month a < month b \/ (month a = month b /\ day a < day b))) ->
  toordinal a < toordinal b.
Proof.
  intros Ha Hb Hlt.
  destruct (valid_fields a Ha) as (Hya & Hma & Hda).
  destruct (valid_fields b Hb) as (Hyb & Hmb & Hdb).
  unfold toordinal.
  destruct Hlt as [Hy|[Hy [Hm|[Hm Hd]]]].
  - pose proof (day_of_year_bounds (year a) (month a) (day a) Hma Hda) as H1.
    pose proof (day_of_year_bounds (year b) (month b) (day b) Hmb Hdb) as H2.
    pose proof (days_before_year_succ (year a)) as H3.
    pose proof (days_before_year_mono (year a + 1) (year b)) as H4. lia.
  - rewrite Hy in *.
    pose proof (month_starts_after (year b) (month a) (month b) (day a)) as H. lia.
  - rewrite Hy, Hm. lia.
Qed.

(** X10: [toordinal], on which the ten-day check rests, follows the
    calendar: of two dates [datetime.date] can hold, the one that is
    earlier or equal by year, month and day has the smaller or equal
    ordinal, and only that one. *)
Theorem toordinal_follows_calendar (a b : date) :
  valid a = true -> valid b = true ->
  (date_le a b <-> toordinal a <= toordinal b).
Proof.
  intros Ha Hb. split.
  - intros Hle.
    destruct (decide (year a = year b /\ month a = month b /\ day a = day b))
      as [(Hy & Hm & Hd)|Hne].
    + unfold toordinal. rewrite Hy, Hm, Hd. lia.
    + apply Z.lt_le_incl, toordinal_lt_of_earlier; auto.
      unfold date_le in Hle. lia.
  - intros Hord. unfold date_le.
    destruct (Z_lt_le_dec (year b) (year a)) as [Hy|Hy].
    { pose proof (toordinal_lt_of_earlier b a Hb Ha). lia. }
    destruct (Z_lt_le_dec (year a) (year b)) as [Hy'|Hy']; [auto|].
    right. split; [lia|].
    destruct (Z_lt_le_dec (month b) (month a)) as [Hm|Hm].
    { pose proof (toordinal_lt_of_earlier b a Hb Ha). lia. }
    destruct (Z_lt_le_dec (month a) (month b)) as [Hm'|Hm']; [auto|].
    right. split; [lia|].
    destruct (Z_lt_le_dec (day b) (day a)) as [Hd|Hd]; [|exact Hd].
    pose proof (toordinal_lt_of_earlier b a Hb Ha). lia.
Qed.

Lemma toordinal_follows_calendar_witness :
  date_le (Date 2024 2 29) (Date 2024 3 1)
  <-> toordinal (Date 2024 2 29) <= toordinal (Date 2024 3 1).
Proof.
  apply (toordinal_follows_calendar (Date 2024 2 29) (Date 2024 3 1)); reflexivity.
Defined.




(** X12: a return window that has closed stays closed.  If an order's ship
    date is more than ten days before [today], then on every later date
    and in every state reached by further calls [initiate_return] refuses
    that order and leaves the store as it is. *)
Theorem closed_window_stays_closed
    (s : store) (today later : date) (order_id reason : string) (cs : list call) :
  reachable s ->
  valid today = true -> valid later = true -> date_le today later ->
  window_closed today s order_id ->
  initiate_return later order_id reason (run_all cs s)
  = Returns ("Return cannot be initiated for order " ++ order_id
             ++ " as it has been more than 10 days since shipping.")
            (run_all cs s).
Proof.
  intros Hreach Htoday Hlater Hle (text & d & Hship & Htext & Hd & Hdays).
  pose proof (reachable_consistent s Hreach) as Hs.
  pose proof (reachable_consistent _ (reachable_run_all s cs Hreach)) as Hs'.
  assert (Hid : order_id ∈ ["12345"; "67890"; "11223"]).
  { rewrite (shipped_fixed s Hs) in Hship.
    destruct (known_cases order_id) as [ [ -> | [ -> | -> ] ] | [_ [_ [_ Hn] ] ] ];
      rewrite ?elem_of_cons; auto. congruence. }
  apply initiate_return_refused; [exact Hid|].
  exists text, d. rewrite (shipped_fixed _ Hs'), <- (shipped_fixed s Hs).
  repeat split; auto.
  apply (toordinal_follows_calendar today later Htoday Hlater) in Hle.
  unfold days_between in *. lia.
Qed.

Lemma closed_window_stays_closed_witness :
  date_le (Date 2025 2 25) (Date 2025 12 24)
  /\ window_closed (Date 2025 2 25) init "11223"
  /\ initiate_return (Date 2025 12 24) "11223" "damaged"
       (run_all [CancelReturn "11223" "changed mind"] init)
     = Returns "Return cannot be initiated for order 11223 as it has been more than 10 days since shipping."
         (run_all [CancelReturn "11223" "changed mind"] init).
Proof.
  assert (Hle : date_le (Date 2025 2 25) (Date 2025 12 24)).
  { right. split; [reflexivity|]. left. cbn. lia. }
  assert (Hclosed : window_closed (Date 2025 2 25) init "11223").
  { exists "2/2/25", (Date 2025 2 2).
    split; [reflexivity|]. split; [discriminate|]. split; [reflexivity|].
    vm_compute. reflexivity. }
  split; [exact Hle|]. split; [exact Hclosed|].
  apply (closed_window_stays_closed init (Date 2025 2 25) (Date 2025 12 24) "11223"
           "damaged" [CancelReturn "11223" "changed mind"]);
    [constructor | reflexivity | reflexivity | exact Hle | exact Hclosed].
Defined.

(** *** Stores whose dictionaries disagree *)

(** X13: [initiate_return] is not all-or-nothing.  It writes the status
    before it reads the price, so for a listed order within its window
    whose price entry is missing, it raises [KeyError] with the status
    already set to "Return Initiated". *)
Theorem missing_price_raises_after_status_write
    (s : store) (today : date) (order_id reason : string) :
  order_id ∈ ["12345"; "67890"; "11223"] ->
  window_open today s order_id ->
  order_price s !! order_id = None ->
  initiate_return today order_id reason s
  = Raises (KeyError order_id)
      {| order_statuses := <[order_id := "Return Initiated"]> (order_statuses s);
         order_price := order_price s;
         order_shipped := order_shipped s;
         original_prices := original_prices s |}.
Proof.
  intros Hid Hopen Hp. unfold initiate_return.
  rewrite bool_decide_eq_true_2 by exact Hid.
  unfold bind at 1. rewrite (window_check_open _ _ _ Hopen).
  cbv [bind set_status write getitem read]. cbn [order_price].
  rewrite Hp. reflexivity.
Qed.

Lemma missing_price_raises_after_status_write_witness :
  window_open (Date 2025 2 25) (without_prices init) "67890"
  /\ initiate_return (Date 2025 2 25) "67890" "wrong item" (without_prices init)
     = Raises (KeyError "67890")
         {| order_statuses := <["67890" := "Return Initiated"]> (order_statuses init);
            order_price := ∅;
            order_shipped := order_shipped init;
            original_prices := original_prices init |}.
Proof.
  assert (Hopen : window_open (Date 2025 2 25) (without_prices init) "67890").
  { exists (Date 2025 2 24). split; [reflexivity | vm_compute; discriminate]. }
  split; [exact Hopen|].
  apply (missing_price_raises_after_status_write (without_prices init) (Date 2025 2 25)
           "67890" "wrong item"); [right; left | exact Hopen | reflexivity].
Defined.

(** X14: the default of the price lookup in [cancel_return] is stored when
    the price is missing.  For an order whose status is "Return Initiated"
    and that has no price entry, [cancel_return] succeeds, makes
    "order_price" its price and reports "Price reset to order_price." *)
Theorem cancel_stores_default_price (s : store) (order_id reason : string) :
  order_statuses s !! order_id = Some "Return Initiated" ->
  order_price s !! order_id = None ->
  cancel_return order_id reason s
  = Returns ("Return cancellation initiated for order " ++ order_id ++ " due to: "
             ++ reason ++ ". Price reset to order_price.")
      {| order_statuses := order_statuses s;
         order_price := <[order_id := "order_price"]> (order_price s);
         order_shipped := order_shipped s;
         original_prices := original_prices s |}.
Proof.
  intros Hst Hp.
  cbv [cancel_return bind read getitem]. rewrite Hst.
  rewrite bool_decide_eq_true_2 by eauto. cbv [ret]. rewrite Hst.
  rewrite String.eqb_refl.
  cbv [set_status set_price write]. cbn [order_statuses order_price].
  rewrite Hst, Hp. cbv [default from_option Datatypes.id].
  rewrite lookup_insert_eq, (insert_id _ order_id _ Hst). reflexivity.
Qed.

Lemma cancel_stores_default_price_witness :
  cancel_return "67890" "changed mind" (without_prices (returned "67890" "77.42$" init))
  = Returns "Return cancellation initiated for order 67890 due to: changed mind. Price reset to order_price."
      {| order_statuses := order_statuses (returned "67890" "77.42$" init);
         order_price := <["67890" := "order_price"]> ∅;
         order_shipped := order_shipped init;
         original_prices := original_prices init |}.
Proof.
  apply (cancel_stores_default_price (without_prices (returned "67890" "77.42$" init))
           "67890" "changed mind"); reflexivity.
Defined.

(** *** The text of a price *)

Lemma append_cons a s t : String a s ++ t = String a (s ++ t).
Proof. reflexivity. Qed.

Lemma append_assoc s t u : (s ++ t) ++ u = s ++ (t ++ u).
Proof.
  induction s as [|a s IH]; [reflexivity|].
  rewrite !append_cons. now rewrite IH.
Qed.

Lemma rstrip_kept chars s c :
  PyStr.mem_char c chars = false ->
  PyStr.rstrip chars (s ++ String c "") = s ++ String c "".
Proof.
  intros Hc. induction s as [|a s IH].
  - cbn [PyStr.rstrip]. change ("" ++ String c "") with (String c "").
    cbn [PyStr.rstrip]. now rewrite Hc.
  - rewrite append_cons. cbn [PyStr.rstrip]. rewrite IH.
    destruct s; reflexivity.
Qed.

Lemma rstrip_dropped chars s c :
  PyStr.mem_char c chars = true ->
  PyStr.rstrip chars (s ++ String c "") = PyStr.rstrip chars s.
Proof.
  intros Hc. induction s as [|a s IH].
  - change ("" ++ String c "") with (String c "").
    cbn [PyStr.rstrip]. now rewrite Hc.
  - rewrite append_cons. cbn [PyStr.rstrip]. now rewrite IH.
Qed.

Lemma digit_char_not_dollar n :
  (n < 10)%N -> PyStr.mem_char (PyStr.digit_char n) "$" = false.
Proof.
  intros Hn. cbn [PyStr.mem_char].
  destruct (Ascii.eqb_spec (PyStr.digit_char n) "$") as [Heq|Hne]; [|reflexivity].
  apply (f_equal N_of_ascii) in Heq. unfold PyStr.digit_char in Heq.
  rewrite N_ascii_embedding in Heq by lia. cbn in Heq. lia.
Qed.

(** X15: the currency sign [initiate_return] appends to a price is what
    [rstrip("$")] takes off again, and nothing more: for every float [x],
    stripping the text written for [x] gives back [f"{x:.2f}"]. *)
Theorem rstrip_undoes_currency_sign (x : PyFloat.float) :
  PyStr.rstrip "$" (PyFloat.format_2f x ++ "$") = PyFloat.format_2f x.
Proof.
  rewrite (rstrip_dropped "$" _ "$") by reflexivity.
  destruct x as [neg|neg| |neg m e]; cbn [PyFloat.format_2f].
  - destruct neg; reflexivity.
  - destruct neg; reflexivity.
  - reflexivity.
  - set (h := PyFloat.hundredths m e).
    set (whole := PyStr.of_N (h / 100)).
    set (d1 := PyStr.digit_char (h mod 100 / 10)).
    set (d2 := PyStr.digit_char (h mod 10)).
    replace (PyFloat.sign_text neg ++ whole ++ "." ++ String d1 (String d2 ""))
      with ((PyFloat.sign_text neg ++ whole ++ "." ++ String d1 "") ++ String d2 "").
    + apply rstrip_kept. apply digit_char_not_dollar. apply N.mod_lt. discriminate.
    + rewrite !append_assoc. reflexivity.
Qed.

(** *** The chat page *)

Import Chat.

Lemma relay_keeps_page events pg :
  drawn pg = messages pg ->
  drawn (page_of (relay events pg)) = messages (page_of (relay events pg))
  /\ messages pg `prefix_of` messages (page_of (relay events pg)).
Proof.
  revert pg. induction events as [|e rest IH]; intros pg Hpg; cbn [relay].
  - split; [exact Hpg | reflexivity].
  - destruct (e !! "messages") as [found|]; [|now apply IH].
    destruct (last found) as [text|]; [|split; [exact Hpg | reflexivity]].
    destruct (IH (say "assistant" text pg)) as [Hd Hp].
    { cbn [say drawn messages]. now rewrite Hpg. }
    split; [exact Hd|].
    etrans; [|exact Hp]. cbn [say messages]. now apply prefix_app_r.
Qed.

(** X16: the page shows the transcript and the transcript only grows.
    However a run of the script ends, what it has drawn is exactly the
    message list it leaves in the session, and the list it found there is
    a prefix of that list: no entry is dropped, changed or reordered. *)
Theorem page_shows_growing_transcript
    (session : option (list message)) (chat_input : option string) (events : list event) :
  drawn (page_of (script session chat_input events))
  = messages (page_of (script session chat_input events))
  /\ default [] session `prefix_of` messages (page_of (script session chat_input events)).
Proof.
  unfold script. destruct chat_input as [user_input|]; [|split; reflexivity].
  destruct (PyStr.truthy user_input); [|split; reflexivity].
  destruct (relay_keeps_page events
              (say "user" user_input {| messages := default [] session;
                                        drawn := default [] session |})) as [Hd Hp].
  { reflexivity. }
  split; [exact Hd|].
  etrans; [|exact Hp]. cbn [say messages]. now apply prefix_app_r.
Qed.

Lemma omap_reply_cons e rest :
  omap reply_of (e :: rest)
  = match reply_of e with
    | Some text => text :: omap reply_of rest
    | None => omap reply_of rest
    end.
Proof. reflexivity. Qed.

Lemma relay_well_formed events pg :
  well_formed events ->
  relay events pg
  = Done {| messages := messages pg ++ (Message "assistant" <$> omap reply_of events);
            drawn := drawn pg ++ (Message "assistant" <$> omap reply_of events) |}.
Proof.
  revert pg. induction events as [|e rest IH]; intros pg Hwf.
  - cbn. rewrite !app_nil_r. now destruct pg.
  - apply Forall_cons in Hwf as [He Hrest].
    rewrite omap_reply_cons. cbn [relay].
    change (reply_of e) with (e !! "messages" ≫= last).
    destruct (e !! "messages") as [found|]; cbn [mbind option_bind]; [|now apply IH].
    destruct (last found) as [text|] eqn:Hlast.
    + rewrite (IH _ Hrest). cbn [say messages drawn]. rewrite !fmap_cons.
      now rewrite <- !app_assoc.
    + apply last_None in Hlast. congruence.
Qed.

(** X17: a turn adds the user's entry and one assistant entry per event
    that has messages, the content of the last message of each, in order.
    This holds when the input is not empty and no event has an empty
    message list. *)
Theorem turn_appends_user_then_replies
    (session : option (list message)) (user_input : string) (events : list event) :
  user_input <> "" ->
  well_formed events ->
  script session (Some user_input) events
  = Done {| messages := default [] session ++ Message "user" user_input
                          :: (Message "assistant" <$> omap reply_of events);
            drawn := default [] session ++ Message "user" user_input
                       :: (Message "assistant" <$> omap reply_of events) |}.
Proof.
  intros Hinput Hwf. unfold script. rewrite (nonempty_truthy _ Hinput).
  rewrite (relay_well_formed _ _ Hwf). cbn [say messages drawn].
  now rewrite <- !app_assoc.
Qed.

Lemma turn_appends_user_then_replies_witness :
  script (Some [Message "user" "hello"; Message "assistant" "Hi!"])
    (Some "status of 12345?")
    [ {[ "messages" := ["status of 12345?"] ]};
      {[ "other" := [] ]};
      {[ "messages" := ["status of 12345?"; "Shipped"] ]} ]
  = Done {| messages := [Message "user" "hello"; Message "assistant" "Hi!";
                         Message "user" "status of 12345?";
                         Message "assistant" "status of 12345?";
                         Message "assistant" "Shipped"];
            drawn := [Message "user" "hello"; Message "assistant" "Hi!";
                      Message "user" "status of 12345?";
                      Message "assistant" "status of 12345?";
                      Message "assistant" "Shipped"] |}.
Proof.
  etrans.
  - apply (turn_appends_user_then_replies
             (Some [Message "user" "hello"; Message "assistant" "Hi!"])
             "status of 12345?"
             [ {[ "messages" := ["status of 12345?"] ]};
               {[ "other" := [] ]};
               {[ "messages" := ["status of 12345?"; "Shipped"] ]} ]).
    + discriminate.
    + repeat constructor; vm_compute; discriminate.
  - vm_compute. reflexivity.
Defined.

Lemma relay_stops_at_empty before e after pg :
  well_formed before ->
  e !! "messages" = Some [] ->
  relay (before ++ e :: after) pg
  = IndexError
      {| messages := messages pg ++ (Message "assistant" <$> omap reply_of before);
         drawn := drawn pg ++ (Message "assistant" <$> omap reply_of before) |}.
Proof.
  intros Hwf He. revert pg. induction before as [|b rest IH]; intros pg.
  - cbn [app relay]. rewrite He. cbn. rewrite !app_nil_r. now destruct pg.
  - apply Forall_cons in Hwf as [Hb Hrest].
    rewrite omap_reply_cons. cbn [app relay].
    change (reply_of b) with (b !! "messages" ≫= last).
    destruct (b !! "messages") as [found|]; cbn [mbind option_bind]; [|now apply IH].
    destruct (last found) as [text|] eqn:Hlast.
    + rewrite (IH Hrest). cbn [say messages drawn]. rewrite !fmap_cons.
      now rewrite <- !app_assoc.
    + apply last_None in Hlast. congruence.
Qed.

(** X18: an event whose message list is empty stops the run with
    [IndexError]: [event["messages"][-1]] has nothing to take.  The entries
    appended before it stay in the session and on the page, the events
    after it are not looked at. *)
Theorem empty_event_stops_the_turn
    (session : option (list message)) (user_input : string)
    (before after : list event) (e : event) :
  user_input <> "" ->
  well_formed before ->
  e !! "messages" = Some [] ->
  script session (Some user_input) (before ++ e :: after)
  = IndexError
      {| messages := default [] session ++ Message "user" user_input
                       :: (Message "assistant" <$> omap reply_of before);
         drawn := default [] session ++ Message "user" user_input
                    :: (Message "assistant" <$> omap reply_of before) |}.
Proof.
  intros Hinput Hwf He. unfold script. rewrite (nonempty_truthy _ Hinput).
  rewrite (relay_stops_at_empty _ _ _ _ Hwf He). cbn [say messages drawn].
  now rewrite <- !app_assoc.
Qed.

Lemma empty_event_stops_the_turn_witness :
  script None (Some "hello")
    ([ {[ "messages" := ["hello"] ]} ] ++ {[ "messages" := [] ]}
       :: [ {[ "messages" := ["never shown"] ]} ])
  = IndexError
      {| messages := [Message "user" "hello"; Message "assistant" "hello"];
         drawn := [Message "user" "hello"; Message "assistant" "hello"] |}.
Proof.
  etrans.
  - apply (empty_event_stops_the_turn None "hello"
             [ {[ "messages" := ["hello"] ]} ]
             [ {[ "messages" := ["never shown"] ]} ]
             {[ "messages" := [] ]}).
    + discriminate.
    + repeat constructor; vm_compute; discriminate.
    + reflexivity.
  - vm_compute. reflexivity.
Defined.

(** *** The order of calls *)











